(** * The collaboration relay of EduBuddy-Backend (setupWebSocket)

    A shallow embedding of the WebSocket relay: the room directory
    ([rooms], a JavaScript [Map] from room id to [Room]), the connection
    registry ([connections], a [Set] of sockets), the per-connection closure
    variables ([userId], [currentRoomId], [pingInterval]) and the four event
    handlers registered on every socket ([message], [close], [error],
    [pong]) together with the heartbeat callback.

    Sockets are named by natural numbers (object identity).  Everything a
    handler hands to [ws.send] is appended to [wire], everything it prints
    to [console]. *)

From Stdlib Require Import ZArith.
From stdpp Require Import base decidable option list gmap strings.

Set Warnings "-clear-no-such-hyp".

Open Scope string_scope.
Open Scope list_scope.
Open Scope nat_scope.

(** ** JavaScript values found in message fields

    [JSON.parse] is not followed by any validation, so a field typed
    [string] or [number] by [CodeCollabMessage] holds whatever the frame
    carried, or [undefined] when the frame did not have it.  Field values
    that are themselves objects or arrays are outside this model, and
    numbers are the integers of the wire schema. *)

Inductive jsval :=
| JUndefined
| JNull
| JBool (b : bool)
| JNum (n : Z)
| JStr (s : string).

#[global] Instance jsval_eq_dec : EqDecision jsval.
Proof. solve_decision. Defined.

(** ToBoolean: what [if (v)], [!v] and [a && b] look at. *)
Definition truthy (v : jsval) : bool :=
  match v with
  | JUndefined | JNull => false
  | JBool b => b
  | JNum n => negb (n =? 0)%Z
  | JStr s => match s with EmptyString => false | String _ _ => true end
  end.

(** ** JavaScript [Map]

    A [Map] keeps its entries in insertion order, holds a key at most once,
    and [forEach] visits the entries in that order; [set] on a key already
    present overwrites the value in place. *)

Section JsMap.
Context {K V : Type} `{EqDecision K}.

Fixpoint jm_get (k : K) (m : list (K * V)) : option V :=
  match m with
  | [] => None
  | (k', v) :: m' => if decide (k = k') then Some v else jm_get k m'
  end.

Definition jm_has (k : K) (m : list (K * V)) : bool :=
  match jm_get k m with Some _ => true | None => false end.

Fixpoint jm_set (k : K) (v : V) (m : list (K * V)) : list (K * V) :=
  match m with
  | [] => [(k, v)]
  | (k', v') :: m' =>
      if decide (k = k') then (k, v) :: m' else (k', v') :: jm_set k v m'
  end.

Fixpoint jm_delete (k : K) (m : list (K * V)) : list (K * V) :=
  match m with
  | [] => []
  | (k', v') :: m' =>
      if decide (k = k') then jm_delete k m' else (k', v') :: jm_delete k m'
  end.

Definition jm_size (m : list (K * V)) : nat := length m.

Definition jm_keys (m : list (K * V)) : list K := map fst m.

(** Representation invariant: no key is held twice. *)
Definition jm_wf (m : list (K * V)) : Prop := NoDup (jm_keys m).
End JsMap.

(** ** Messages, frames and payloads *)

(** A parsed frame: the fields the relay reads, and the rest of the object
    ([content], [position], anything else) kept as it came. *)
Record message := Message {
  m_type : jsval;
  m_roomId : jsval;
  m_userId : jsval;
  m_username : jsval;
  m_rest : string
}.

(** What [JSON.parse(data.toString())] makes of an inbound frame:
    it throws, it yields [null] (reading [message.type] then throws), or it
    yields a value whose properties can be read. *)
Inductive frame :=
| Unparseable
| ParsedNull
| Parsed (m : message).

(** What the relay serialises and sends. *)
Inductive payload :=
| JoinNotice (roomId userId username : jsval)
| Relayed (m : message)
| LeaveNotice (roomId userId : jsval)
| ErrorNotice.

#[global] Instance message_eq_dec : EqDecision message.
Proof. solve_decision. Defined.
#[global] Instance payload_eq_dec : EqDecision payload.
Proof. solve_decision. Defined.

(** ** State *)

Inductive ready_state := CONNECTING | OPEN | CLOSING | CLOSED.

#[global] Instance ready_state_eq_dec : EqDecision ready_state.
Proof. solve_decision. Defined.

(** One accepted socket and the closure of its connection callback.
    [readyState] and [sendThrows] belong to the [ws] object ([sendThrows]
    is the environment's: a peer so broken that [send] raises); [userId],
    [currentRoomId] and [pingInterval] are the callback's locals;
    [clearIntervalCalls] counts the [clearInterval(pingInterval)] calls. *)
Record connection := Connection {
  readyState : ready_state;
  sendThrows : bool;
  userId : jsval;
  currentRoomId : jsval;
  pingInterval : bool;
  clearIntervalCalls : nat
}.

Record Room := MkRoom { participants : list (jsval * nat) }.

(** [lastPingTime] is a [Date], kept as its time value: milliseconds,
    counted from the call of [setupWebSocket]. *)
Record ConnectionStats := MkStats {
  totalConnections : nat;
  activeRooms : nat;
  lastPingTime : Z
}.

Inductive diag :=
| LogClientConnected
| LogStats (stats : ConnectionStats)
| ErrPingFailed
| LogHeartbeat
| LogReceived (type : jsval)
| LogRoomCreated (roomId : jsval)
| LogJoined (userId roomId : jsval) (total : nat)
| WarnCodeNoContext
| ErrCodeNoRoom (roomId : jsval)
| ErrCodeSend (participantId : jsval)
| WarnCursorNoContext
| ErrCursorNoRoom (roomId : jsval)
| ErrCursorSend (participantId : jsval)
| ErrMessage
| LogDisconnected
| LogLeft (userId roomId : jsval) (remaining : nat)
| LogRoomRemoved (roomId : jsval)
| ErrSocket.

Record state := State {
  rooms : list (jsval * Room);
  connections : gset nat;
  sockets : gmap nat connection;
  lastStats : ConnectionStats;
  wire : list (nat * payload);
  console : list diag
}.

Definition init : state :=
  {| rooms := []; connections := ∅; sockets := ∅;
     lastStats := {| totalConnections := 0; activeRooms := 0;
                     lastPingTime := 0 |};
     wire := []; console := [] |}.

Definition with_rooms (r : list (jsval * Room)) (s : state) : state :=
  {| rooms := r; connections := connections s; sockets := sockets s;
     lastStats := lastStats s; wire := wire s; console := console s |}.

Definition with_connections (c : gset nat) (s : state) : state :=
  {| rooms := rooms s; connections := c; sockets := sockets s;
     lastStats := lastStats s; wire := wire s; console := console s |}.

Definition with_sockets (k : gmap nat connection) (s : state) : state :=
  {| rooms := rooms s; connections := connections s; sockets := k;
     lastStats := lastStats s; wire := wire s; console := console s |}.

Definition with_lastStats (t : ConnectionStats) (s : state) : state :=
  {| rooms := rooms s; connections := connections s; sockets := sockets s;
     lastStats := t; wire := wire s; console := console s |}.

Definition with_wire (w : list (nat * payload)) (s : state) : state :=
  {| rooms := rooms s; connections := connections s; sockets := sockets s;
     lastStats := lastStats s; wire := w; console := console s |}.

Definition with_console (l : list diag) (s : state) : state :=
  {| rooms := rooms s; connections := connections s; sockets := sockets s;
     lastStats := lastStats s; wire := wire s; console := l |}.

(** ** Handlers run in a state monad with exceptions *)

Inductive outcome (A : Type) :=
| Returned (a : A)
| Threw.
Arguments Returned {A} a.
Arguments Threw {A}.

Definition M (A : Type) : Type := state → outcome A * state.

#[global] Instance M_ret : MRet M := λ A a s, (Returned a, s).
#[global] Instance M_bind : MBind M := λ A B f m s,
  match m s with
  | (Returned a, s') => f a s'
  | (Threw, s') => (Threw, s')
  end.

Definition throw {A} : M A := λ s, (Threw, s).

(** [try { body } catch (error) { handler }] *)
Definition try_catch {A} (body handler : M A) : M A := λ s,
  match body s with
  | (Returned a, s') => (Returned a, s')
  | (Threw, s') => handler s'
  end.

Definition gets {A} (f : state → A) : M A := λ s, (Returned (f s), s).
Definition modify (f : state → state) : M unit := λ s, (Returned tt, f s).

Definition exec {A} (m : M A) (s : state) : state := snd (m s).

(** ** Primitive operations *)

Definition console_log (d : diag) : M unit :=
  modify (λ s, with_console (console s ++ [d]) s).

Definition logConnectionStats : M unit :=
  stats ← gets lastStats; console_log (LogStats stats).

(** [ws.readyState]; a name that denotes no socket reads as [CLOSED]. *)
Definition readyState_in (k : gmap nat connection) (ws : nat) : ready_state :=
  match k !! ws with
  | Some c => readyState c
  | None => CLOSED
  end.

Definition open_in (k : gmap nat connection) (ws : nat) : bool :=
  bool_decide (readyState_in k ws = OPEN).

Definition raises_in (k : gmap nat connection) (ws : nat) : bool :=
  match k !! ws with
  | Some c => sendThrows c
  | None => false
  end.

Definition is_open (ws : nat) (s : state) : bool := open_in (sockets s) ws.

Definition send_raises (ws : nat) (s : state) : bool := raises_in (sockets s) ws.

(** [ws.send(JSON.stringify(p))].  A broken peer makes it raise; otherwise
    the payload goes out when the socket is open.  (Every call in the
    source is guarded by [readyState === WebSocket.OPEN].) *)
Definition ws_send (ws : nat) (p : payload) : M unit := λ s,
  if send_raises ws s then (Threw, s)
  else if is_open ws s then (Returned tt, with_wire (wire s ++ [(ws, p)]) s)
  else (Returned tt, s).

(** The closure's locals. *)
Definition userId_of (ws : nat) (s : state) : jsval :=
  match sockets s !! ws with
  | Some k => userId k
  | None => JNull
  end.

Definition currentRoomId_of (ws : nat) (s : state) : jsval :=
  match sockets s !! ws with
  | Some k => currentRoomId k
  | None => JNull
  end.

Definition bind_ids (u r : jsval) (k : connection) : connection :=
  {| readyState := readyState k; sendThrows := sendThrows k;
     userId := u; currentRoomId := r;
     pingInterval := pingInterval k;
     clearIntervalCalls := clearIntervalCalls k |}.

Definition set_readyState (r : ready_state) (k : connection) : connection :=
  {| readyState := r; sendThrows := sendThrows k;
     userId := userId k; currentRoomId := currentRoomId k;
     pingInterval := pingInterval k;
     clearIntervalCalls := clearIntervalCalls k |}.

Definition set_sendThrows (b : bool) (k : connection) : connection :=
  {| readyState := readyState k; sendThrows := b;
     userId := userId k; currentRoomId := currentRoomId k;
     pingInterval := pingInterval k;
     clearIntervalCalls := clearIntervalCalls k |}.

(** [clearInterval(pingInterval)]: disarms the timer, and is harmless on a
    timer already disarmed. *)
Definition clear_timer (k : connection) : connection :=
  {| readyState := readyState k; sendThrows := sendThrows k;
     userId := userId k; currentRoomId := currentRoomId k;
     pingInterval := false;
     clearIntervalCalls := S (clearIntervalCalls k) |}.

Definition update_socket (f : connection → connection) (ws : nat) : M unit :=
  modify (λ s, with_sockets (alter f ws (sockets s)) s).

Definition clearInterval (ws : nat) : M unit := update_socket clear_timer ws.

(** [ws.terminate()]: the socket is destroyed, its [close] event follows
    later. *)
Definition ws_terminate (ws : nat) : M unit :=
  update_socket (set_readyState CLOSING) ws.

Definition ws_ping (pingThrows : bool) : M unit :=
  if pingThrows then throw else mret tt.

Definition set_totalConnections : M unit :=
  modify (λ s, with_lastStats
    {| totalConnections := size (connections s);
       activeRooms := activeRooms (lastStats s);
       lastPingTime := lastPingTime (lastStats s) |} s).

Definition set_activeRooms : M unit :=
  modify (λ s, with_lastStats
    {| totalConnections := totalConnections (lastStats s);
       activeRooms := jm_size (rooms s);
       lastPingTime := lastPingTime (lastStats s) |} s).

(** [lastStats.lastPingTime = new Date()], where [now] is the date the
    system clock gives. *)
Definition set_lastPingTime (now : Z) : M unit :=
  modify (λ s, with_lastStats
    {| totalConnections := totalConnections (lastStats s);
       activeRooms := activeRooms (lastStats s);
       lastPingTime := now |} s).

(** [m.forEach((value, key) => f(value, key))]: in insertion order, and an
    exception raised by the callback ends the iteration. *)
Fixpoint jm_forEach {K V} (f : V → K → M unit) (m : list (K * V)) : M unit :=
  match m with
  | [] => mret tt
  | (k, v) :: m' => f v k;; jm_forEach f m'
  end.

(** [room.participants] of the room stored under [r], empty when there is
    no such room. *)
Definition room_participants (r : jsval) (s : state) : list (jsval * nat) :=
  match jm_get r (rooms s) with
  | Some room => participants room
  | None => []
  end.

(** ** The handlers of [setupWebSocket] *)

(** The socket the library hands to the [connection] callback, with the
    callback's locals: [userId = null], [currentRoomId = null], and the
    heartbeat timer armed by [setInterval]. *)
Definition new_connection : connection :=
  {| readyState := OPEN; sendThrows := false;
     userId := JNull; currentRoomId := JNull;
     pingInterval := true; clearIntervalCalls := 0 |}.

Definition on_connection (ws : nat) : M unit :=
  modify (λ s, with_sockets (<[ws := new_connection]> (sockets s)) s);;
  console_log LogClientConnected;;
  modify (λ s, with_connections ({[ws]} ∪ connections s) s);;
  set_totalConnections;;
  set_activeRooms;;
  logConnectionStats.

(** The [setInterval] callback of one connection, lines 45-55. *)
Definition heartbeat (ws : nat) (pingThrows : bool) (now : Z) : M unit :=
  ready ← gets (is_open ws);
  if ready : bool then
    try_catch (ws_ping pingThrows;; set_lastPingTime now)
              (console_log ErrPingFailed;; ws_terminate ws)
  else mret tt.

Definition on_pong : M unit := console_log LogHeartbeat.

Definition parse_message (data : frame) : M message :=
  match data with
  | Unparseable => throw
  | ParsedNull => throw
  | Parsed m => mret m
  end.

(** The three fan-out loops. *)

(** join_room: lines 81-90, no [try] around [send]. *)
Definition notify_join (uid rid : jsval) (message : message)
    (ps : list (jsval * nat)) : M unit :=
  jm_forEach (λ participant participantId,
    ready ← gets (is_open participant);
    if bool_decide (participantId ≠ uid) && ready then
      ws_send participant
        (JoinNotice rid (m_userId message) (m_username message))
    else mret tt) ps.

(** code_update and cursor_update: lines 105-113 and 128-136, each [send]
    in its own [try]. *)
Definition relay (uid : jsval) (message : message) (failed : jsval → diag)
    (ps : list (jsval * nat)) : M unit :=
  jm_forEach (λ participant participantId,
    ready ← gets (is_open participant);
    if bool_decide (participantId ≠ uid) && ready then
      try_catch (ws_send participant (Relayed message))
                (console_log (failed participantId))
    else mret tt) ps.

(** close: lines 167-175, no exclusion and no [try]. *)
Definition notify_leave (uid rid : jsval) (ps : list (jsval * nat)) : M unit :=
  jm_forEach (λ participant _,
    ready ← gets (is_open participant);
    if ready : bool then ws_send participant (LeaveNotice rid uid)
    else mret tt) ps.

Definition join_room (ws : nat) (message : message) : M unit :=
  let uid := m_userId message in
  let rid := m_roomId message in
  update_socket (bind_ids uid rid) ws;;
  known ← gets (λ s, jm_has rid (rooms s));
  (if known : bool then mret tt
   else
     modify (λ s, with_rooms (jm_set rid (MkRoom []) (rooms s)) s);;
     console_log (LogRoomCreated rid));;
  modify (λ s, with_rooms
    (jm_set rid (MkRoom (jm_set uid ws (room_participants rid s))) (rooms s)) s);;
  total ← gets (λ s, jm_size (room_participants rid s));
  console_log (LogJoined uid rid total);;
  ps ← gets (room_participants rid);
  notify_join uid rid message ps.

Definition update (ws : nat) (message : message)
    (no_context : diag) (no_room : jsval → diag) (failed : jsval → diag)
    : M unit :=
  rid ← gets (currentRoomId_of ws);
  uid ← gets (userId_of ws);
  if negb (truthy rid) || negb (truthy uid) then console_log no_context
  else
    room ← gets (λ s, jm_get rid (rooms s));
    match room with
    | None => console_log (no_room rid)
    | Some room => relay uid message failed (participants room)
    end.

Definition dispatch (ws : nat) (message : message) : M unit :=
  console_log (LogReceived (m_type message));;
  if decide (m_type message = JStr "join_room") then join_room ws message
  else if decide (m_type message = JStr "code_update") then
    update ws message WarnCodeNoContext ErrCodeNoRoom ErrCodeSend
  else if decide (m_type message = JStr "cursor_update") then
    update ws message WarnCursorNoContext ErrCursorNoRoom ErrCursorSend
  else mret tt.

(** The [catch] block of the message handler, lines 140-148. *)
Definition on_message_catch (ws : nat) : M unit :=
  console_log ErrMessage;;
  ready ← gets (is_open ws);
  if ready : bool then ws_send ws ErrorNotice else mret tt.

Definition on_message (ws : nat) (data : frame) : M unit :=
  try_catch
    (message ← parse_message data; dispatch ws message)
    (on_message_catch ws).

(** The body of [if (currentRoomId && userId)] in the close handler,
    lines 158-177. *)
Definition leave (uid rid : jsval) : M unit :=
  room ← gets (λ s, jm_get rid (rooms s));
  match room with
  | None => mret tt
  | Some room =>
      let ps := jm_delete uid (participants room) in
      modify (λ s, with_rooms (jm_set rid (MkRoom ps) (rooms s)) s);;
      console_log (LogLeft uid rid (jm_size ps));;
      if decide (jm_size ps = 0) then
        modify (λ s, with_rooms (jm_delete rid (rooms s)) s);;
        console_log (LogRoomRemoved rid)
      else notify_leave uid rid ps
  end.

Definition on_close (ws : nat) : M unit :=
  console_log LogDisconnected;;
  modify (λ s, with_connections (connections s ∖ {[ws]}) s);;
  clearInterval ws;;
  set_totalConnections;;
  rid ← gets (currentRoomId_of ws);
  uid ← gets (userId_of ws);
  (if truthy rid && truthy uid then leave uid rid else mret tt);;
  set_activeRooms;;
  logConnectionStats.

Definition on_error (ws : nat) : M unit :=
  console_log ErrSocket;;
  modify (λ s, with_connections (connections s ∖ {[ws]}) s);;
  clearInterval ws;;
  set_totalConnections;;
  logConnectionStats.

(** ** Events

    The event loop runs one callback to completion at a time.  [EvClose]
    is the socket's [close] event, by which time the library has set
    [readyState] to [CLOSED]; [EvSendFault] is the environment breaking or
    mending a peer.  [EvHeartbeat] is one tick of a connection's timer: it
    says whether [ping] raises and which date [new Date()] gives, should
    the callback get that far.  A handler only runs for a socket that was
    accepted, the heartbeat only while its timer is armed.  An exception
    that leaves a handler ends that handler and nothing else. *)
Inductive event :=
| EvConnection (ws : nat)
| EvMessage (ws : nat) (data : frame)
| EvClose (ws : nat)
| EvError (ws : nat)
| EvPong (ws : nat)
| EvHeartbeat (ws : nat) (pingThrows : bool) (now : Z)
| EvStatsTimer
| EvSendFault (ws : nat) (raises : bool).

Definition accepted (ws : nat) (s : state) : bool :=
  bool_decide (is_Some (sockets s !! ws)).

Definition timer_armed (ws : nat) (s : state) : bool :=
  match sockets s !! ws with
  | Some k => pingInterval k
  | None => false
  end.

Definition step (s : state) (e : event) : state :=
  match e with
  | EvConnection ws =>
      if accepted ws s then s else exec (on_connection ws) s
  | EvMessage ws data =>
      if accepted ws s then exec (on_message ws data) s else s
  | EvClose ws =>
      if accepted ws s then
        exec (update_socket (set_readyState CLOSED) ws;; on_close ws) s
      else s
  | EvError ws =>
      if accepted ws s then exec (on_error ws) s else s
  | EvPong ws =>
      if accepted ws s then exec on_pong s else s
  | EvHeartbeat ws pingThrows now =>
      if timer_armed ws s then exec (heartbeat ws pingThrows now) s else s
  | EvStatsTimer => exec logConnectionStats s
  | EvSendFault ws raises =>
      exec (update_socket (set_sendThrows raises) ws) s
  end.

Definition run (tr : list event) : state := fold_left step tr init.

Definition reachable (s : state) : Prop := ∃ tr, s = run tr.

(** ** What a fan-out loop does, as lists

    [attempts g k ps] are the entries a loop calls [send] for: those the
    guard [g] lets through whose socket is open.  A loop without [try]
    stops at the first entry whose [send] raises ([before_raise]); a loop
    with [try] goes on, sending to the sound ones and logging the rest. *)

Definition attempts (g : jsval → bool) (k : gmap nat connection)
    (ps : list (jsval * nat)) : list (jsval * nat) :=
  List.filter (λ e, g e.1 && open_in k e.2) ps.

Fixpoint before_raise (k : gmap nat connection) (l : list (jsval * nat))
    : list (jsval * nat) :=
  match l with
  | [] => []
  | e :: l' => if raises_in k e.2 then [] else e :: before_raise k l'
  end.

Definition any_raise (k : gmap nat connection) (l : list (jsval * nat)) : bool :=
  existsb (λ e, raises_in k e.2) l.

Definition sound (k : gmap nat connection) (l : list (jsval * nat))
    : list (jsval * nat) :=
  List.filter (λ e, negb (raises_in k e.2)) l.

Definition broken (k : gmap nat connection) (l : list (jsval * nat))
    : list (jsval * nat) :=
  List.filter (λ e, raises_in k e.2) l.

Definition to_wire (p : payload) (l : list (jsval * nat)) : list (nat * payload) :=
  map (λ e, (e.2, p)) l.

Definition other_than (uid : jsval) (participantId : jsval) : bool :=
  bool_decide (participantId ≠ uid).

(** ** The room directory, as the handlers change it *)

(** What join_room does to [rooms]: the room is created when absent, and
    [ws] is stored under [uid]. *)
Definition dir_join (rid uid : jsval) (ws : nat) (r : list (jsval * Room))
    : list (jsval * Room) :=
  let ps := match jm_get rid r with
            | Some room => participants room
            | None => []
            end in
  jm_set rid (MkRoom (jm_set uid ws ps)) r.

(** What the close handler does to [rooms] for a connection whose locals
    are [rid] and [uid]. *)
Definition dir_leave (rid uid : jsval) (r : list (jsval * Room))
    : list (jsval * Room) :=
  if truthy rid && truthy uid then
    match jm_get rid r with
    | None => r
    | Some room =>
        let ps := jm_delete uid (participants room) in
        if decide (jm_size ps = 0) then jm_delete rid r
        else jm_set rid (MkRoom ps) r
    end
  else r.

(** Every [Map] of the directory holds a key once, and no room is empty. *)
Definition rooms_wf (r : list (jsval * Room)) : Prop :=
  jm_wf r ∧
  ∀ rid room, (rid, room) ∈ r →
    jm_wf (participants room) ∧ participants room ≠ [].

(** The handlers take a connection to be bound to a room and a user id
    when both locals pass [currentRoomId && userId], the guard of lines 95,
    118 and 157: neither is [null], [undefined], the empty string or 0. *)
Definition bound (ws : nat) (rid uid : jsval) (s : state) : Prop :=
  currentRoomId_of ws s = rid ∧ userId_of ws s = uid ∧
  truthy rid = true ∧ truthy uid = true.

(** ** Reading a trace *)

Definition is_join_room (data : frame) : bool :=
  match data with
  | Parsed m => bool_decide (m_type m = JStr "join_room")
  | _ => false
  end.

(** [e] is a join_room frame arriving on [ws]. *)
Definition joins (ws : nat) (e : event) : bool :=
  match e with
  | EvMessage ws' data => bool_decide (ws' = ws) && is_join_room data
  | _ => false
  end.

(** The rooms whose participant mapping refers to socket [ws]. *)
Definition rooms_of (ws : nat) (r : list (jsval * Room)) : list jsval :=
  jm_keys (List.filter
    (λ e, existsb (λ p, bool_decide (p.2 = ws)) (participants e.2)) r).

Definition clearIntervalCalls_of (ws : nat) (s : state) : nat :=
  match sockets s !! ws with
  | Some k => clearIntervalCalls k
  | None => 0
  end.

(** ** Frames used in the scenarios *)

Definition join_frame (room : string) (user : Z) (name : string) : frame :=
  Parsed {| m_type := JStr "join_room"; m_roomId := JStr room;
            m_userId := JNum user; m_username := JStr name; m_rest := "" |}.

Definition code_message (room : string) (user : Z) (content : string) : message :=
  {| m_type := JStr "code_update"; m_roomId := JStr room;
     m_userId := JNum user; m_username := JUndefined; m_rest := content |}.


(** Whether the relay, started in [s] and fed [tr], runs the join_room
    case for socket [ws]: a join_room frame arrives on [ws] at a moment
    when [ws] is an accepted socket. *)
Fixpoint processed_join (ws : nat) (s : state) (tr : list event) : bool :=
  match tr with
  | [] => false
  | e :: tr' =>
      (joins ws e && accepted ws s) || processed_join ws (step s e) tr'
  end.

(** ** Proof automation

    [mstep] runs the monadic glue of a handler: it unfolds the monad and the
    one-line primitives, and reads fields of states built on the way. *)
Ltac mstep :=
  cbv [mbind M_bind mret M_ret modify gets console_log update_socket throw
       try_catch logConnectionStats set_totalConnections set_activeRooms
       set_lastPingTime clearInterval ws_terminate ws_ping on_pong exec
       ws_send is_open send_raises
       with_rooms with_sockets with_console with_wire with_connections
       with_lastStats];
  cbn [rooms connections sockets lastStats wire console fst snd].

(** ** Further notions for the properties beyond the claims *)

(** What a handler run added to the wire. *)
Definition new_wire (s s' : state) : list (nat * payload) :=
  drop (length (wire s)) (wire s').

(** The log line of a failed [send] in the two update cases. *)
Definition send_failed (type : jsval) : jsval → diag :=
  if decide (type = JStr "code_update") then ErrCodeSend else ErrCursorSend.

Definition room_missing (type : jsval) : jsval → diag :=
  if decide (type = JStr "code_update") then ErrCodeNoRoom else ErrCursorNoRoom.

Definition is_update (type : jsval) : bool :=
  bool_decide (type = JStr "code_update") ||
  bool_decide (type = JStr "cursor_update").

(** Every socket runs the join_room case at most once along [tr], started
    in [s]; [seen] are the sockets that already did. *)
Fixpoint joins_once_from (s : state) (seen : gset nat) (tr : list event) : bool :=
  match tr with
  | [] => true
  | e :: tr' =>
      match e with
      | EvMessage ws data =>
          if is_join_room data && accepted ws s then
            bool_decide (ws ∉ seen) &&
            joins_once_from (step s e) ({[ws]} ∪ seen) tr'
          else joins_once_from (step s e) seen tr'
      | _ => joins_once_from (step s e) seen tr'
      end
  end.

Definition joins_once (tr : list event) : bool := joins_once_from init ∅ tr.

(** The locals of [ws] are [rid] and [uid], truthy or not. *)
Definition bound_ids_are (ws : nat) (rid uid : jsval) (s : state) : Prop :=
  currentRoomId_of ws s = rid ∧ userId_of ws s = uid.

(** How many times payload [p] was handed to socket [ws]. *)
Definition inbox_count (ws : nat) (p : payload) (w : list (nat * payload)) : nat :=
  length (filter (λ e, e = (ws, p)) w).

(** Every entry of every room stores a socket of [seen] whose locals are
    that room id and that user id. *)
Definition entries_match (s : state) (seen : gset nat) : Prop :=
  ∀ rid v d, (v, d) ∈ room_participants rid s →
    d ∈ seen ∧ currentRoomId_of d s = rid ∧ userId_of d s = v.

(** What the close handler of a connection with locals [rid] and [uid]
    hands to [send], given the directory [r] and the sockets [k]. *)
Definition close_extra (rid uid : jsval) (r : list (jsval * Room))
    (k : gmap nat connection) : list (nat * payload) :=
  if truthy rid && truthy uid then
    match jm_get rid r with
    | Some room =>
        to_wire (LeaveNotice rid uid)
          (before_raise k
             (attempts (λ _, true) k (jm_delete uid (participants room))))
    | None => []
    end
  else [].

(** ** Lemmas on [Map] *)

Section JsMapFacts.
Context {K V : Type} `{EqDecision K}.
Implicit Types (k : K) (v : V) (m : list (K * V)).

Lemma jm_get_set_eq k v m : jm_get k (jm_set k v m) = Some v.
Proof.
  induction m as [|[k' v'] m IH]; simpl.
  - by rewrite decide_True.
  - destruct (decide (k = k')) as [->|Hne]; simpl.
    + by rewrite decide_True.
    + by rewrite decide_False.
Qed.

Lemma jm_get_set_ne k k' v m :
  k ≠ k' → jm_get k' (jm_set k v m) = jm_get k' m.
Proof.
  intros Hne. induction m as [|[k0 v0] m IH]; simpl.
  - by rewrite decide_False.
  - destruct (decide (k = k0)) as [->|Hk]; simpl.
    + by rewrite !decide_False.
    + destruct (decide (k' = k0)); done.
Qed.

Lemma jm_get_delete_eq k m : jm_get k (jm_delete k m) = None.
Proof.
  induction m as [|[k' v'] m IH]; simpl; [done|].
  destruct (decide (k = k')); simpl; [done|]. by rewrite decide_False.
Qed.

Lemma jm_get_delete_ne k k' m :
  k ≠ k' → jm_get k' (jm_delete k m) = jm_get k' m.
Proof.
  intros Hne. induction m as [|[k0 v0] m IH]; simpl; [done|].
  destruct (decide (k = k0)) as [->|Hk]; simpl.
  - by rewrite decide_False.
  - destruct (decide (k' = k0)); done.
Qed.

Lemma jm_set_set k v v' m : jm_set k v (jm_set k v' m) = jm_set k v m.
Proof.
  induction m as [|[k0 v0] m IH]; simpl.
  - by rewrite decide_True.
  - destruct (decide (k = k0)) as [->|Hk]; simpl.
    + by rewrite decide_True.
    + rewrite decide_False; [|done]. by rewrite IH.
Qed.

Lemma jm_set_not_nil k v m : jm_set k v m ≠ [].
Proof. destruct m as [|[k' v'] m]; simpl; [done|]. by case_decide. Qed.

Lemma jm_get_None_keys k m : jm_get k m = None ↔ k ∉ jm_keys m.
Proof.
  induction m as [|[k' v'] m IH]; simpl.
  - split; [intros _; apply not_elem_of_nil | done].
  - rewrite not_elem_of_cons. destruct (decide (k = k')) as [->|Hk].
    + split; [done | by intros [? _]].
    + rewrite IH. naive_solver.
Qed.

Lemma jm_get_Some_elem k v m : jm_get k m = Some v → (k, v) ∈ m.
Proof.
  induction m as [|[k' v'] m IH]; simpl; [done|].
  destruct (decide (k = k')) as [->|Hk].
  - intros [= ->]. apply elem_of_cons; by left.
  - intros Hg. apply elem_of_cons; right; auto.
Qed.

Lemma jm_elem_keys k v m : (k, v) ∈ m → k ∈ jm_keys m.
Proof.
  intros Hin. unfold jm_keys. apply list_elem_of_In, in_map_iff.
  exists (k, v). split; [done | by apply list_elem_of_In].
Qed.

Lemma jm_elem_get k v m : jm_wf m → (k, v) ∈ m → jm_get k m = Some v.
Proof.
  unfold jm_wf. induction m as [|[k' v'] m IH]; simpl.
  - intros _ Hin. by apply elem_of_nil in Hin.
  - rewrite NoDup_cons. intros [Hk' Hnd] Hin.
    apply elem_of_cons in Hin as [[= -> ->]|Hin].
    + by rewrite decide_True.
    + rewrite decide_False; [auto|].
      intros ->. apply Hk'. by eapply jm_elem_keys.
Qed.

Lemma jm_keys_set_old k v m :
  k ∈ jm_keys m → jm_keys (jm_set k v m) = jm_keys m.
Proof.
  induction m as [|[k' v'] m IH]; simpl.
  - intros Hin. by apply elem_of_nil in Hin.
  - intros Hin. destruct (decide (k = k')) as [->|Hk]; simpl; [done|].
    apply elem_of_cons in Hin as [?|Hin]; [done|]. by rewrite IH.
Qed.

Lemma jm_keys_set_new k v m :
  k ∉ jm_keys m → jm_keys (jm_set k v m) = jm_keys m ++ [k].
Proof.
  induction m as [|[k' v'] m IH]; simpl; [done|].
  rewrite not_elem_of_cons. intros [Hk Hin].
  rewrite decide_False; [|done]. simpl. by rewrite IH.
Qed.

Lemma jm_wf_set k v m : jm_wf m → jm_wf (jm_set k v m).
Proof.
  unfold jm_wf. intros Hnd. destruct (decide (k ∈ jm_keys m)) as [Hin|Hin].
  - by rewrite jm_keys_set_old.
  - rewrite jm_keys_set_new; [|done].
    apply NoDup_app. split_and!; [done | | apply NoDup_singleton].
    intros x Hx Hx'. apply list_elem_of_singleton in Hx' as ->. done.
Qed.

Lemma jm_elem_delete k k' v m :
  (k', v) ∈ jm_delete k m ↔ (k', v) ∈ m ∧ k' ≠ k.
Proof.
  induction m as [|[k0 v0] m IH]; simpl.
  - rewrite elem_of_nil. naive_solver.
  - destruct (decide (k = k0)) as [->|Hk].
    + rewrite IH, elem_of_cons. naive_solver.
    + rewrite !elem_of_cons, IH. naive_solver.
Qed.

Lemma jm_keys_delete k k' m :
  k' ∈ jm_keys (jm_delete k m) ↔ k' ∈ jm_keys m ∧ k' ≠ k.
Proof.
  induction m as [|[k0 v0] m IH]; simpl.
  - rewrite elem_of_nil. naive_solver.
  - destruct (decide (k = k0)) as [->|Hk]; simpl.
    + rewrite IH, elem_of_cons. naive_solver.
    + rewrite !elem_of_cons, IH. naive_solver.
Qed.

Lemma jm_wf_delete k m : jm_wf m → jm_wf (jm_delete k m).
Proof.
  unfold jm_wf. induction m as [|[k0 v0] m IH]; simpl; [done|].
  rewrite NoDup_cons. intros [Hk0 Hnd].
  destruct (decide (k = k0)) as [->|Hk]; simpl; [auto|].
  apply NoDup_cons. split; [|auto].
  intros Hin. apply jm_keys_delete in Hin as [Hin _]. done.
Qed.

Lemma jm_delete_absent k m : jm_get k m = None → jm_delete k m = m.
Proof.
  induction m as [|[k0 v0] m IH]; simpl; [done|].
  destruct (decide (k = k0)); [done|]. intros Hg. by rewrite IH.
Qed.

Lemma jm_size_delete k m :
  jm_wf m → is_Some (jm_get k m) → S (jm_size (jm_delete k m)) = jm_size m.
Proof.
  unfold jm_wf, jm_size. induction m as [|[k0 v0] m IH]; simpl.
  - by intros _ [? ?].
  - rewrite NoDup_cons. intros [Hk0 Hnd] Hs.
    destruct (decide (k = k0)) as [->|Hk]; simpl.
    + rewrite jm_delete_absent; [done|]. by apply jm_get_None_keys.
    + by rewrite IH.
Qed.

Lemma jm_elem_set k v k' v' m :
  (k', v') ∈ jm_set k v m → (k' = k ∧ v' = v) ∨ (k', v') ∈ m.
Proof.
  induction m as [|[k0 v0] m IH]; simpl.
  - rewrite list_elem_of_singleton. naive_solver.
  - destruct (decide (k = k0)) as [->|Hk]; rewrite !elem_of_cons; naive_solver.
Qed.

Lemma jm_has_true k m : jm_has k m = true ↔ is_Some (jm_get k m).
Proof.
  unfold jm_has. destruct (jm_get k m); split; eauto; try done.
Qed.

Lemma jm_has_false k m : jm_has k m = false ↔ jm_get k m = None.
Proof. unfold jm_has. by destruct (jm_get k m). Qed.

(** A key already held is counted once, before and after [set]. *)
Lemma jm_keys_set_count k v m :
  jm_wf m → length (filter (λ e, e.1 = k) (jm_set k v m)) = 1.
Proof.
  unfold jm_wf. induction m as [|[k0 v0] m IH]; simpl.
  - intros _. by rewrite filter_cons_True.
  - rewrite NoDup_cons. intros [Hk0 Hnd].
    destruct (decide (k = k0)) as [->|Hk].
    + rewrite filter_cons_True; [|done]. simpl. f_equal.
      apply length_zero_iff_nil. apply elem_of_nil_inv. intros [k1 v1] Hin.
      apply list_elem_of_filter in Hin as [Heq Hin]. simpl in Heq. subst k1.
      apply Hk0. by eapply jm_elem_keys.
    + rewrite filter_cons_False; [auto|]. simpl. congruence.
Qed.
End JsMapFacts.

(** ** The fan-out loops *)

Lemma state_eta s :
  State (rooms s) (connections s) (sockets s) (lastStats s) (wire s) (console s) = s.
Proof. by destruct s. Qed.

(** A loop without [try]: payloads go out, in order, up to the first entry
    whose [send] raises; nothing else of the state moves. *)
Lemma send_loop_spec (g : jsval → bool) (p : payload) ps s :
  jm_forEach (λ participant participantId,
      ready ← gets (is_open participant);
      if g participantId && ready then ws_send participant p else mret tt) ps s
  = (if any_raise (sockets s) (attempts g (sockets s) ps)
     then Threw else Returned tt,
     with_wire (wire s ++
       to_wire p (before_raise (sockets s) (attempts g (sockets s) ps))) s).
Proof.
  revert s. induction ps as [|[k v] ps IH]; intros s.
  - simpl. unfold mret, M_ret, with_wire. by rewrite app_nil_r, state_eta.
  - cbn [jm_forEach]. unfold mbind at 1, M_bind at 1.
    unfold mbind at 1, M_bind at 1. cbn [gets].
    unfold attempts. cbn [List.filter fst snd]. unfold is_open at 1.
    destruct (g k && open_in (sockets s) v) eqn:Hg.
    + unfold ws_send at 1, send_raises, is_open.
      destruct (raises_in (sockets s) v) eqn:Hr.
      * cbn [any_raise existsb before_raise to_wire map snd]. rewrite Hr.
        cbn. unfold with_wire. by rewrite app_nil_r, state_eta.
      * apply andb_true_iff in Hg as [_ Ho]. rewrite Ho.
        rewrite IH. cbn [any_raise existsb before_raise to_wire map snd].
        cbn [with_wire sockets wire]. rewrite Hr. cbn [orb].
        unfold with_wire; cbn. by rewrite <- app_assoc.
    + unfold mret at 1, M_ret at 1. by rewrite IH.
Qed.

Lemma notify_join_spec uid rid message ps s :
  notify_join uid rid message ps s
  = (if any_raise (sockets s) (attempts (other_than uid) (sockets s) ps)
     then Threw else Returned tt,
     with_wire (wire s ++
       to_wire (JoinNotice rid (m_userId message) (m_username message))
         (before_raise (sockets s) (attempts (other_than uid) (sockets s) ps))) s).
Proof. apply (send_loop_spec (other_than uid)). Qed.

Lemma notify_leave_spec uid rid ps s :
  notify_leave uid rid ps s
  = (if any_raise (sockets s) (attempts (λ _, true) (sockets s) ps)
     then Threw else Returned tt,
     with_wire (wire s ++
       to_wire (LeaveNotice rid uid)
         (before_raise (sockets s) (attempts (λ _, true) (sockets s) ps))) s).
Proof. apply (send_loop_spec (λ _, true)). Qed.

(** The loop with [try]: every entry is attempted; a raising [send] is
    logged and the loop goes on. *)
Lemma relay_spec uid message failed ps s :
  relay uid message failed ps s
  = (Returned tt,
     with_console
       (console s ++ map (λ e, failed e.1)
          (broken (sockets s) (attempts (other_than uid) (sockets s) ps)))
       (with_wire
          (wire s ++ to_wire (Relayed message)
             (sound (sockets s) (attempts (other_than uid) (sockets s) ps))) s)).
Proof.
  unfold relay. revert s. induction ps as [|[k v] ps IH]; intros s.
  - simpl. unfold mret, M_ret, with_wire, with_console; cbn.
    by rewrite !app_nil_r, state_eta.
  - cbn [jm_forEach]. unfold mbind at 1, M_bind at 1.
    unfold mbind at 1, M_bind at 1. cbn [gets].
    unfold attempts. cbn [List.filter fst snd]. unfold is_open at 1.
    change (bool_decide (k ≠ uid)) with (other_than uid k).
    destruct (other_than uid k && open_in (sockets s) v) eqn:Hg.
    + unfold try_catch at 1, ws_send at 1, send_raises, is_open.
      destruct (raises_in (sockets s) v) eqn:Hr.
      * unfold console_log at 1, modify at 1. rewrite IH.
        unfold sound, broken. cbn [List.filter snd with_console sockets].
        rewrite Hr. cbn.
        unfold with_wire, with_console; cbn. by rewrite <- app_assoc.
      * apply andb_true_iff in Hg as [_ Ho]. rewrite Ho.
        rewrite IH. unfold sound, broken. cbn [List.filter snd with_wire sockets].
        rewrite Hr. cbn.
        unfold with_wire, with_console; cbn. by rewrite <- app_assoc.
    + unfold mret at 1, M_ret at 1. by rewrite IH.
Qed.

(** The loops read [readyState] and [sendThrows] only: rebinding the
    closure's locals does not change whom they reach. *)
Lemma open_in_alter f ws k d :
  (∀ c, readyState (f c) = readyState c) →
  open_in (alter f ws k) d = open_in k d.
Proof.
  intros Hf. unfold open_in, readyState_in. rewrite lookup_alter.
  case_decide; [subst d|done]. destruct (k !! ws); simpl; [|done]. by rewrite Hf.
Qed.

Lemma raises_in_alter f ws k d :
  (∀ c, sendThrows (f c) = sendThrows c) →
  raises_in (alter f ws k) d = raises_in k d.
Proof.
  intros Hf. unfold raises_in. rewrite lookup_alter.
  case_decide; [subst d|done]. destruct (k !! ws); simpl; [|done]. by rewrite Hf.
Qed.

Lemma attempts_ext g k k' ps :
  (∀ d, open_in k d = open_in k' d) → attempts g k ps = attempts g k' ps.
Proof.
  intros Ho. unfold attempts. induction ps as [|e ps IH]; simpl; [done|].
  by rewrite Ho, IH.
Qed.

Lemma before_raise_ext k k' l :
  (∀ d, raises_in k d = raises_in k' d) → before_raise k l = before_raise k' l.
Proof.
  intros Hr. induction l as [|e l IH]; simpl; [done|]. by rewrite Hr, IH.
Qed.

Lemma any_raise_ext k k' l :
  (∀ d, raises_in k d = raises_in k' d) → any_raise k l = any_raise k' l.
Proof.
  intros Hr. unfold any_raise. induction l as [|e l IH]; simpl; [done|].
  by rewrite Hr, IH.
Qed.

(** ** The handlers, one equation each *)

(** join_room: the locals are rebound, the room is there afterwards with
    [ws] stored under the user id, and the notice goes round until a
    [send] raises. *)
Lemma join_room_exec ws message s :
  let uid := m_userId message in
  let rid := m_roomId message in
  let ps := jm_set uid ws (room_participants rid s) in
  let to := attempts (other_than uid) (sockets s) ps in
  join_room ws message s =
  (if any_raise (sockets s) to then Threw else Returned tt,
   {| rooms := jm_set rid (MkRoom ps) (rooms s);
      connections := connections s;
      sockets := alter (bind_ids uid rid) ws (sockets s);
      lastStats := lastStats s;
      wire := wire s ++
        to_wire (JoinNotice rid uid (m_username message))
                (before_raise (sockets s) to);
      console := console s ++
        (if jm_has rid (rooms s) then [] else [LogRoomCreated rid]) ++
        [LogJoined uid rid (jm_size ps)] |}).
Proof.
  intros uid rid ps to. unfold join_room.
  fold uid rid.
  set (k' := alter (bind_ids uid rid) ws (sockets s)).
  assert (Hto : attempts (other_than uid) k' ps = to).
  { apply attempts_ext. intros d. by apply open_in_alter. }
  assert (Hbr : ∀ l, before_raise k' l = before_raise (sockets s) l).
  { intros l. apply before_raise_ext. intros d. by apply raises_in_alter. }
  assert (Har : ∀ l, any_raise k' l = any_raise (sockets s) l).
  { intros l. apply any_raise_ext. intros d. by apply raises_in_alter. }
  mstep. unfold room_participants in *. cbn [rooms].
  destruct (jm_has rid (rooms s)) eqn:Hhas.
  - mstep. rewrite notify_join_spec. mstep.
    rewrite jm_get_set_eq. cbn [participants]. fold k'. fold ps.
    by rewrite Hto, Hbr, Har.
  - apply jm_has_false in Hhas.
    mstep. rewrite notify_join_spec. mstep.
    rewrite !jm_get_set_eq. cbn [participants]. rewrite jm_set_set. fold k'.
    assert (Hps : ps = jm_set uid ws []) by (unfold ps; by rewrite Hhas).
    rewrite <- Hps, Hto, Hbr, Har. by rewrite <- ?app_assoc.
Qed.

Lemma on_message_catch_exec ws s :
  on_message_catch ws s =
  let s1 := with_console (console s ++ [ErrMessage]) s in
  if is_open ws s then
    if send_raises ws s then (Threw, s1)
    else (Returned tt, with_wire (wire s ++ [(ws, ErrorNotice)]) s1)
  else (Returned tt, s1).
Proof.
  unfold on_message_catch. mstep.
  destruct (open_in (sockets s) ws) eqn:Ho; mstep; [|done].
  destruct (raises_in (sockets s) ws); [done|]. by rewrite Ho.
Qed.

(** code_update and cursor_update. *)
Lemma update_exec ws message no_context no_room failed s :
  update ws message no_context no_room failed s =
  let rid := currentRoomId_of ws s in
  let uid := userId_of ws s in
  if negb (truthy rid) || negb (truthy uid) then
    (Returned tt, with_console (console s ++ [no_context]) s)
  else
    match jm_get rid (rooms s) with
    | None => (Returned tt, with_console (console s ++ [no_room rid]) s)
    | Some room =>
        let to := attempts (other_than uid) (sockets s) (participants room) in
        (Returned tt,
         with_console (console s ++ map (λ e, failed e.1) (broken (sockets s) to))
           (with_wire
              (wire s ++ to_wire (Relayed message) (sound (sockets s) to)) s))
    end.
Proof.
  unfold update. mstep.
  destruct (negb (truthy (currentRoomId_of ws s)) || negb (truthy (userId_of ws s)));
    mstep; [done|].
  destruct (jm_get (currentRoomId_of ws s) (rooms s)) as [room|]; mstep; [|done].
  by rewrite relay_spec.
Qed.

(** The body of the close handler's [if]. *)
Lemma leave_exec uid rid s :
  leave uid rid s =
  match jm_get rid (rooms s) with
  | None => (Returned tt, s)
  | Some room =>
      let ps := jm_delete uid (participants room) in
      let s1 := with_console (console s ++ [LogLeft uid rid (jm_size ps)])
                  (with_rooms (jm_set rid (MkRoom ps) (rooms s)) s) in
      if decide (jm_size ps = 0) then
        (Returned tt,
         with_console (console s1 ++ [LogRoomRemoved rid])
           (with_rooms (jm_delete rid (rooms s1)) s1))
      else
        let to := attempts (λ _, true) (sockets s) ps in
        (if any_raise (sockets s) to then Threw else Returned tt,
         with_wire (wire s ++
           to_wire (LeaveNotice rid uid) (before_raise (sockets s) to)) s1)
  end.
Proof.
  unfold leave. mstep.
  destruct (jm_get rid (rooms s)) as [room|]; mstep; [|done].
  case_decide; mstep; [done|]. by rewrite notify_leave_spec.
Qed.

Lemma jm_delete_set {K V} `{EqDecision K} (k : K) (v : V) m :
  jm_delete k (jm_set k v m) = jm_delete k m.
Proof.
  induction m as [|[k0 v0] m IH]; simpl.
  - by rewrite decide_True.
  - destruct (decide (k = k0)) as [->|Hk]; simpl.
    + by rewrite decide_True.
    + rewrite decide_False; [|done]. by rewrite IH.
Qed.

Lemma ids_alter f (ws : nat) (k : gmap nat connection) (d : nat) :
  (∀ c, userId (f c) = userId c ∧ currentRoomId (f c) = currentRoomId c) →
  match alter f ws k !! d with Some c => userId c | None => JNull end
    = match k !! d with Some c => userId c | None => JNull end ∧
  match alter f ws k !! d with Some c => currentRoomId c | None => JNull end
    = match k !! d with Some c => currentRoomId c | None => JNull end.
Proof.
  intros Hf. rewrite lookup_alter. case_decide; [subst d|done].
  destruct (k !! ws); simpl; [|done]. destruct (Hf c) as [-> ->]. done.
Qed.

(** *** What each handler leaves of [rooms], [connections] and [sockets] *)

Lemma on_message_catch_core ws s :
  let s' := exec (on_message_catch ws) s in
  rooms s' = rooms s ∧ connections s' = connections s ∧ sockets s' = sockets s.
Proof.
  unfold exec. rewrite on_message_catch_exec. cbn zeta.
  destruct (is_open ws s); [destruct (send_raises ws s)|]; done.
Qed.

Lemma on_message_bad_exec ws data s :
  is_join_room data = false →
  (∀ m, data ≠ Parsed m) →
  on_message ws data s = on_message_catch ws s.
Proof.
  intros _ Hd. unfold on_message.
  destruct data as [| |m]; [done|done|]. by destruct (Hd m).
Qed.

Lemma on_message_join_exec ws message s :
  m_type message = JStr "join_room" →
  on_message ws (Parsed message) s =
  let s0 := with_console (console s ++ [LogReceived (m_type message)]) s in
  match join_room ws message s0 with
  | (Returned _, s1) => (Returned tt, s1)
  | (Threw, s1) => on_message_catch ws s1
  end.
Proof.
  intros Hty. unfold on_message.
  cbv [try_catch mbind M_bind mret M_ret parse_message dispatch console_log modify].
  rewrite decide_True by done.
  by destruct (join_room ws message _) as [[[]|] s1].
Qed.

Lemma on_message_join_core ws message s :
  m_type message = JStr "join_room" →
  let s' := exec (on_message ws (Parsed message)) s in
  rooms s' = dir_join (m_roomId message) (m_userId message) ws (rooms s) ∧
  connections s' = connections s ∧
  sockets s' = alter (bind_ids (m_userId message) (m_roomId message)) ws (sockets s).
Proof.
  intros Hty. unfold exec. rewrite on_message_join_exec by done. cbn zeta.
  rewrite join_room_exec. cbn zeta.
  destruct (any_raise _ _).
  - match goal with |- context [on_message_catch ws ?t] =>
      destruct (on_message_catch_core ws t) as (Hr & Hc & Hk) end.
    unfold exec in *. rewrite Hr, Hc, Hk. done.
  - done.
Qed.

Lemma update_core ws message a b c s :
  let s' := exec (update ws message a b c) s in
  rooms s' = rooms s ∧ connections s' = connections s ∧ sockets s' = sockets s.
Proof.
  unfold exec. rewrite update_exec. cbn zeta.
  destruct (_ || _); [done|]. by destruct (jm_get _ _).
Qed.

Lemma on_message_other_core ws data s :
  is_join_room data = false →
  let s' := exec (on_message ws data) s in
  rooms s' = rooms s ∧ connections s' = connections s ∧ sockets s' = sockets s.
Proof.
  intros Hj. destruct data as [| |m].
  - unfold exec. rewrite on_message_bad_exec by done. apply on_message_catch_core.
  - unfold exec. rewrite on_message_bad_exec by done. apply on_message_catch_core.
  - simpl in Hj. apply bool_decide_eq_false in Hj.
    unfold exec, on_message.
    cbv [try_catch mbind M_bind mret M_ret parse_message dispatch console_log modify].
    rewrite decide_False by done.
    set (s0 := with_console _ s).
    repeat case_decide.
    + destruct (update_core ws m WarnCodeNoContext ErrCodeNoRoom ErrCodeSend s0)
        as (Hr & Hc & Hk). unfold exec in *.
      rewrite update_exec in *. cbn zeta in *.
      destruct (_ || _); [done|]. by destruct (jm_get _ _).
    + destruct (update_core ws m WarnCursorNoContext ErrCursorNoRoom ErrCursorSend s0)
        as (Hr & Hc & Hk). unfold exec in *.
      rewrite update_exec in *. cbn zeta in *.
      destruct (_ || _); [done|]. by destruct (jm_get _ _).
    + done.
Qed.

Lemma leave_core uid rid s :
  let s' := exec (leave uid rid) s in
  rooms s' =
    match jm_get rid (rooms s) with
    | None => rooms s
    | Some room =>
        let ps := jm_delete uid (participants room) in
        if decide (jm_size ps = 0) then jm_delete rid (rooms s)
        else jm_set rid (MkRoom ps) (rooms s)
    end ∧
  connections s' = connections s ∧ sockets s' = sockets s.
Proof.
  unfold exec. rewrite leave_exec.
  destruct (jm_get rid (rooms s)) as [room|]; [|done]. cbn zeta.
  case_decide; cbn; [|done]. by rewrite jm_delete_set.
Qed.

Lemma on_close_exec ws s :
  on_close ws s =
  let s1 :=
    {| rooms := rooms s;
       connections := connections s ∖ {[ws]};
       sockets := alter clear_timer ws (sockets s);
       lastStats := {| totalConnections := size (connections s ∖ {[ws]});
                       activeRooms := activeRooms (lastStats s);
                       lastPingTime := lastPingTime (lastStats s) |};
       wire := wire s;
       console := console s ++ [LogDisconnected] |} in
  let finish := (set_activeRooms;; logConnectionStats) : M unit in
  if truthy (currentRoomId_of ws s) && truthy (userId_of ws s) then
    match leave (userId_of ws s) (currentRoomId_of ws s) s1 with
    | (Returned _, s2) => finish s2
    | (Threw, s2) => (Threw, s2)
    end
  else finish s1.
Proof.
  unfold on_close. mstep.
  unfold currentRoomId_of, userId_of. cbn [sockets].
  destruct (ids_alter clear_timer ws (sockets s) ws) as [-> ->]; [done|].
  destruct (_ && _); mstep; [|done].
  by destruct (leave _ _ _) as [[[]|] s2].
Qed.

Lemma on_close_core ws s :
  let s' := exec (on_close ws) s in
  rooms s' = dir_leave (currentRoomId_of ws s) (userId_of ws s) (rooms s) ∧
  connections s' = connections s ∖ {[ws]} ∧
  sockets s' = alter clear_timer ws (sockets s).
Proof.
  unfold exec. rewrite on_close_exec. cbn zeta. unfold dir_leave.
  destruct (_ && _); [|by mstep].
  match goal with |- context [leave ?u ?r ?t] =>
    destruct (leave_core u r t) as (Hr & Hc & Hk);
    unfold exec in Hr, Hc, Hk; destruct (leave u r t) as [[[]|] s2] end;
    mstep; cbn in *; by rewrite ?Hr, ?Hc, ?Hk.
Qed.

Lemma on_error_core ws s :
  let s' := exec (on_error ws) s in
  rooms s' = rooms s ∧
  connections s' = connections s ∖ {[ws]} ∧
  sockets s' = alter clear_timer ws (sockets s) ∧
  wire s' = wire s.
Proof. unfold on_error. by mstep. Qed.

Lemma on_connection_core ws s :
  let s' := exec (on_connection ws) s in
  rooms s' = rooms s ∧
  connections s' = {[ws]} ∪ connections s ∧
  sockets s' = <[ws := new_connection]> (sockets s) ∧
  wire s' = wire s.
Proof. unfold on_connection. by mstep. Qed.

Lemma heartbeat_core ws pingThrows now s :
  let s' := exec (heartbeat ws pingThrows now) s in
  rooms s' = rooms s ∧
  connections s' = connections s ∧
  sockets s' = (if is_open ws s && pingThrows
                then alter (set_readyState CLOSING) ws (sockets s)
                else sockets s) ∧
  wire s' = wire s.
Proof.
  unfold heartbeat. mstep. destruct (open_in (sockets s) ws); mstep; [|done].
  by destruct pingThrows.
Qed.

(** *** One event *)

(** The directory moves by a join or by a close, and by nothing else. *)
Lemma step_rooms s e :
  rooms (step s e) =
  match e with
  | EvMessage ws (Parsed m) =>
      if accepted ws s && is_join_room (Parsed m)
      then dir_join (m_roomId m) (m_userId m) ws (rooms s)
      else rooms s
  | EvClose ws =>
      if accepted ws s
      then dir_leave (currentRoomId_of ws s) (userId_of ws s) (rooms s)
      else rooms s
  | _ => rooms s
  end.
Proof.
  destruct e as [ws|ws data|ws|ws|ws|ws b t| |ws b]; cbn [step].
  - destruct (accepted ws s); [done|]. apply on_connection_core.
  - destruct (accepted ws s); cbn [andb].
    + destruct data as [| |m].
      * by apply on_message_other_core.
      * by apply on_message_other_core.
      * destruct (is_join_room (Parsed m)) eqn:Hj.
        -- apply on_message_join_core. simpl in Hj. by apply bool_decide_eq_true in Hj.
        -- by apply on_message_other_core.
    + by destruct data.
  - destruct (accepted ws s); [|done].
    unfold exec. unfold mbind at 1, M_bind at 1. mstep.
    match goal with |- context [on_close ws ?t] =>
      destruct (on_close_core ws t) as (Hr & _) end.
    unfold exec in Hr. rewrite Hr. cbn [rooms].
    unfold currentRoomId_of, userId_of. cbn [sockets].
    by destruct (ids_alter (set_readyState CLOSED) ws (sockets s) ws) as [-> ->].
  - destruct (accepted ws s); [|done]. apply on_error_core.
  - destruct (accepted ws s); [|done]. by mstep.
  - destruct (timer_armed ws s); [|done]. apply heartbeat_core.
  - by mstep.
  - by mstep.
Qed.

Lemma step_connections s e :
  connections (step s e) =
  match e with
  | EvConnection ws =>
      if accepted ws s then connections s else {[ws]} ∪ connections s
  | EvClose ws | EvError ws =>
      if accepted ws s then connections s ∖ {[ws]} else connections s
  | _ => connections s
  end.
Proof.
  destruct e as [ws|ws data|ws|ws|ws|ws b t| |ws b]; cbn [step].
  - destruct (accepted ws s); [done|]. apply on_connection_core.
  - destruct (accepted ws s); [|done].
    destruct (is_join_room data) eqn:Hj.
    + destruct data as [| |m]; [done|done|].
      apply on_message_join_core. simpl in Hj. by apply bool_decide_eq_true in Hj.
    + by apply on_message_other_core.
  - destruct (accepted ws s); [|done].
    unfold exec. unfold mbind at 1, M_bind at 1. mstep.
    match goal with |- context [on_close ws ?t] =>
      destruct (on_close_core ws t) as (_ & Hc & _) end.
    unfold exec in Hc. by rewrite Hc.
  - destruct (accepted ws s); [|done]. apply on_error_core.
  - destruct (accepted ws s); [|done]. by mstep.
  - destruct (timer_armed ws s); [|done]. apply heartbeat_core.
  - by mstep.
  - by mstep.
Qed.

Lemma step_sockets s e :
  sockets (step s e) =
  match e with
  | EvConnection ws =>
      if accepted ws s then sockets s else <[ws := new_connection]> (sockets s)
  | EvMessage ws (Parsed m) =>
      if accepted ws s && is_join_room (Parsed m)
      then alter (bind_ids (m_userId m) (m_roomId m)) ws (sockets s)
      else sockets s
  | EvClose ws =>
      if accepted ws s
      then alter clear_timer ws (alter (set_readyState CLOSED) ws (sockets s))
      else sockets s
  | EvError ws =>
      if accepted ws s then alter clear_timer ws (sockets s) else sockets s
  | EvHeartbeat ws pingThrows _ =>
      if timer_armed ws s && is_open ws s && pingThrows
      then alter (set_readyState CLOSING) ws (sockets s)
      else sockets s
  | EvSendFault ws raises => alter (set_sendThrows raises) ws (sockets s)
  | _ => sockets s
  end.
Proof.
  destruct e as [ws|ws data|ws|ws|ws|ws b t| |ws b]; cbn [step].
  - destruct (accepted ws s); [done|]. apply on_connection_core.
  - destruct (accepted ws s); cbn [andb].
    + destruct data as [| |m].
      * by apply on_message_other_core.
      * by apply on_message_other_core.
      * destruct (is_join_room (Parsed m)) eqn:Hj.
        -- apply on_message_join_core. simpl in Hj. by apply bool_decide_eq_true in Hj.
        -- by apply on_message_other_core.
    + by destruct data.
  - destruct (accepted ws s); [|done].
    unfold exec. unfold mbind at 1, M_bind at 1. mstep.
    match goal with |- context [on_close ws ?t] =>
      destruct (on_close_core ws t) as (_ & _ & Hk) end.
    unfold exec in Hk. by rewrite Hk.
  - destruct (accepted ws s); [|done]. apply on_error_core.
  - destruct (accepted ws s); [|done]. by mstep.
  - destruct (timer_armed ws s); cbn [andb]; [|done]. apply heartbeat_core.
  - by mstep.
  - by mstep.
Qed.

(** *** Traces *)

Lemma run_snoc tr e : run (tr ++ [e]) = step (run tr) e.
Proof. unfold run. by rewrite fold_left_app. Qed.

Lemma run_ind (P : state → Prop) :
  P init → (∀ s e, P s → P (step s e)) → ∀ tr, P (run tr).
Proof.
  intros H0 Hs tr. induction tr as [|e tr IH] using rev_ind; [done|].
  rewrite run_snoc. by apply Hs.
Qed.

(** *** The directory stays well formed *)

Lemma rooms_wf_lookup r rid room :
  rooms_wf r → jm_get rid r = Some room →
  jm_wf (participants room) ∧ participants room ≠ [].
Proof. intros [_ Hr] Hg. apply (Hr rid). by apply jm_get_Some_elem. Qed.

Lemma rooms_wf_set r rid ps :
  rooms_wf r → jm_wf ps → ps ≠ [] → rooms_wf (jm_set rid (MkRoom ps) r).
Proof.
  intros [Hk Hr] Hps Hne. split; [by apply jm_wf_set|].
  intros rid' room Hin. apply jm_elem_set in Hin as [[_ ->]|Hin]; [done|eauto].
Qed.

Lemma rooms_wf_delete r rid : rooms_wf r → rooms_wf (jm_delete rid r).
Proof.
  intros [Hk Hr]. split; [by apply jm_wf_delete|].
  intros rid' room Hin. apply jm_elem_delete in Hin as [Hin _]. eauto.
Qed.

Lemma rooms_wf_join rid uid ws r : rooms_wf r → rooms_wf (dir_join rid uid ws r).
Proof.
  intros Hwf. unfold dir_join. apply rooms_wf_set; [done| |apply jm_set_not_nil].
  apply jm_wf_set. destruct (jm_get rid r) as [room|] eqn:Hg.
  - by apply (rooms_wf_lookup r rid).
  - apply NoDup_nil_2.
Qed.

Lemma rooms_wf_leave rid uid r : rooms_wf r → rooms_wf (dir_leave rid uid r).
Proof.
  intros Hwf. unfold dir_leave. destruct (_ && _); [|done].
  destruct (jm_get rid r) as [room|] eqn:Hg; [|done]. cbn zeta.
  case_decide as Hsz; [by apply rooms_wf_delete|].
  apply rooms_wf_set; [done| |].
  - apply jm_wf_delete. by apply (rooms_wf_lookup r rid).
  - intros Hnil. apply Hsz. by rewrite Hnil.
Qed.

Lemma step_wf s e : rooms_wf (rooms s) → rooms_wf (rooms (step s e)).
Proof.
  intros Hwf. rewrite step_rooms.
  destruct e as [ws|ws data|ws|ws|ws|ws b t| |ws b]; try done.
  - destruct data as [| |m]; try done.
    destruct (_ && _); [by apply rooms_wf_join|done].
  - destruct (accepted ws s); [by apply rooms_wf_leave|done].
Qed.

Lemma reachable_wf s : reachable s → rooms_wf (rooms s).
Proof.
  intros [tr ->]. apply (run_ind (λ s, rooms_wf (rooms s))).
  - split; [apply NoDup_nil_2|]. intros rid room Hin. by apply elem_of_nil in Hin.
  - intros s e. apply step_wf.
Qed.

Lemma run_wf tr : rooms_wf (rooms (run tr)).
Proof. apply reachable_wf. by exists tr. Qed.

(** *** The closure's locals move by join_room only *)

Lemma step_ids ws s e :
  joins ws e = false →
  userId_of ws (step s e) = userId_of ws s ∧
  currentRoomId_of ws (step s e) = currentRoomId_of ws s.
Proof.
  intros Hj. unfold userId_of, currentRoomId_of. rewrite step_sockets.
  destruct e as [ws'|ws' data|ws'|ws'|ws'|ws' b t| |ws' b]; try done.
  - destruct (accepted ws' s) eqn:Ha; [done|].
    apply bool_decide_eq_false in Ha.
    destruct (decide (ws' = ws)) as [->|Hne].
    + rewrite lookup_insert_eq. destruct (sockets s !! ws) eqn:Hl; [|done].
      destruct Ha. by eexists.
    + by rewrite lookup_insert_ne.
  - destruct data as [| |m]; try done.
    destruct (accepted ws' s && is_join_room (Parsed m)) eqn:Hc; [|done].
    apply andb_true_iff in Hc as [_ Hc]. cbn [joins] in Hj. rewrite Hc in Hj.
    rewrite andb_true_r in Hj. apply bool_decide_eq_false in Hj.
    by rewrite lookup_alter_ne.
  - destruct (accepted ws' s); [|done].
    destruct (ids_alter clear_timer ws'
                (alter (set_readyState CLOSED) ws' (sockets s)) ws) as [-> ->];
      [done|].
    by apply ids_alter.
  - destruct (accepted ws' s); [|done]. by apply ids_alter.
  - destruct (_ && _); [|done]. by apply ids_alter.
  - by apply ids_alter.
Qed.

Lemma step_ids_unprocessed ws s e :
  joins ws e && accepted ws s = false →
  userId_of ws (step s e) = userId_of ws s ∧
  currentRoomId_of ws (step s e) = currentRoomId_of ws s.
Proof.
  intros [Hj|Ha]%andb_false_iff; [by apply step_ids|].
  destruct (joins ws e) eqn:Hj; [|by apply step_ids].
  destruct e as [ws'|ws' data|ws'|ws'|ws'|ws' b t| |ws' b]; try done.
  cbn [joins] in Hj. apply andb_true_iff in Hj as [->%bool_decide_eq_true _].
  cbn [step]. by rewrite Ha.
Qed.

Lemma fold_ids_unprocessed ws tr s :
  processed_join ws s tr = false →
  userId_of ws (fold_left step tr s) = userId_of ws s ∧
  currentRoomId_of ws (fold_left step tr s) = currentRoomId_of ws s.
Proof.
  revert s. induction tr as [|e tr IH]; intros s; [done|].
  cbn [processed_join fold_left]. intros [He Htr]%orb_false_iff.
  destruct (IH _ Htr) as [-> ->]. by apply step_ids_unprocessed.
Qed.

Lemma run_ids_unbound ws tr :
  processed_join ws init tr = false →
  userId_of ws (run tr) = JNull ∧ currentRoomId_of ws (run tr) = JNull.
Proof. intros Htr. unfold run. by destruct (fold_ids_unprocessed ws tr init Htr) as [-> ->]. Qed.

Lemma before_raise_none k l : any_raise k l = false → before_raise k l = l.
Proof.
  unfold any_raise. induction l as [|e l IH]; simpl; [done|].
  intros [Hr Hl]%orb_false_iff. rewrite Hr. by rewrite IH.
Qed.

(** What the close of a bound connection puts on the wire. *)
Lemma close_wire ws s room :
  accepted ws s = true →
  truthy (currentRoomId_of ws s) = true → truthy (userId_of ws s) = true →
  jm_get (currentRoomId_of ws s) (rooms s) = Some room →
  let rid := currentRoomId_of ws s in
  let uid := userId_of ws s in
  let s' := step s (EvClose ws) in
  let rest := jm_delete uid (participants room) in
  wire s' = wire s ++
    to_wire (LeaveNotice rid uid)
      (before_raise (sockets s') (attempts (λ _, true) (sockets s') rest)).
Proof.
  intros Ha Hr Hu Hg rid uid s' rest.
  assert (Hk : sockets s' =
    alter clear_timer ws (alter (set_readyState CLOSED) ws (sockets s))).
  { unfold s'. by rewrite step_sockets, Ha. }
  rewrite Hk. unfold s'. cbn [step]. rewrite Ha.
  unfold exec. unfold mbind at 1, M_bind at 1. mstep.
  rewrite on_close_exec. cbn zeta.
  unfold currentRoomId_of, userId_of in *. cbn [sockets].
  destruct (ids_alter (set_readyState CLOSED) ws (sockets s) ws) as [-> ->]; [done|].
  rewrite Hr, Hu. cbn [andb]. rewrite leave_exec. cbn [rooms].
  fold rid uid in Hg |- *. rewrite Hg. cbn zeta. fold rest.
  case_decide as Hsz.
  - mstep. apply length_zero_iff_nil in Hsz. rewrite Hsz. simpl.
    by rewrite app_nil_r.
  - cbn [sockets]. by destruct (any_raise _ _); mstep.
Qed.

(** *** The directory at reachable states *)

Lemma listed_iff_occupied tr rid :
  jm_has rid (rooms (run tr)) = true ↔ room_participants rid (run tr) ≠ [].
Proof.
  unfold room_participants. rewrite jm_has_true. split.
  - intros [room Hg]. rewrite Hg.
    by apply (rooms_wf_lookup _ _ _ (run_wf tr) Hg).
  - destruct (jm_get rid (rooms (run tr))); [by eexists|done].
Qed.

Lemma unlisted_iff_empty tr rid :
  jm_has rid (rooms (run tr)) = false ↔ room_participants rid (run tr) = [].
Proof.
  destruct (listed_iff_occupied tr rid) as [H1 H2].
  destruct (jm_has rid (rooms (run tr))) eqn:Hh.
  - split; [done|]. intros Hn. by destruct (H1 eq_refl).
  - split; [|done]. intros _.
    destruct (room_participants rid (run tr)) eqn:Hp; [done|].
    by assert (false = true) by (apply H2; done).
Qed.

Lemma join_step s ws m :
  accepted ws s = true → m_type m = JStr "join_room" →
  let s' := step s (EvMessage ws (Parsed m)) in
  rooms s' = dir_join (m_roomId m) (m_userId m) ws (rooms s) ∧
  room_participants (m_roomId m) s'
    = jm_set (m_userId m) ws (room_participants (m_roomId m) s) ∧
  ∀ rid, rid ≠ m_roomId m → jm_get rid (rooms s') = jm_get rid (rooms s).
Proof.
  intros Ha Hty s'.
  assert (Hr : rooms s' = dir_join (m_roomId m) (m_userId m) ws (rooms s)).
  { unfold s'. rewrite step_rooms, Ha. simpl. by rewrite bool_decide_true. }
  unfold room_participants. rewrite Hr. unfold dir_join. split_and!; [done| |].
  - by rewrite jm_get_set_eq.
  - intros rid Hne. by rewrite jm_get_set_ne.
Qed.

Lemma close_step s ws :
  accepted ws s = true →
  truthy (currentRoomId_of ws s) = true → truthy (userId_of ws s) = true →
  let rid := currentRoomId_of ws s in
  let s' := step s (EvClose ws) in
  room_participants rid s' = jm_delete (userId_of ws s) (room_participants rid s) ∧
  ∀ rid', rid' ≠ rid → jm_get rid' (rooms s') = jm_get rid' (rooms s).
Proof.
  intros Ha Hr Hu rid s'.
  assert (Hrooms : rooms s' = dir_leave rid (userId_of ws s) (rooms s)).
  { unfold s'. by rewrite step_rooms, Ha. }
  split.
  - unfold room_participants. rewrite Hrooms. unfold dir_leave.
    fold rid in Hr. rewrite Hr, Hu. cbn [andb].
    destruct (jm_get rid (rooms s)) as [room|] eqn:Hg; [|by rewrite Hg].
    cbn zeta. case_decide as Hsz.
    + rewrite jm_get_delete_eq. symmetry. by apply length_zero_iff_nil.
    + by rewrite jm_get_set_eq.
  - intros rid' Hne. rewrite Hrooms. unfold dir_leave.
    destruct (_ && _); [|done].
    destruct (jm_get rid (rooms s)) as [room|] eqn:Hg; [|done]. cbn zeta.
    case_decide; [by rewrite jm_get_delete_ne|by rewrite jm_get_set_ne].
Qed.

(** Where the exclusion does hold: no loop that excludes [uid] calls [send]
    for the entry stored under [uid]. *)
Lemma attempts_other_than uid k ps v d :
  (v, d) ∈ attempts (other_than uid) k ps →
  v ≠ uid ∧ (v, d) ∈ ps ∧ open_in k d = true.
Proof.
  unfold attempts. rewrite list_elem_of_In, filter_In, <- list_elem_of_In.
  intros [Hin [Hv Ho]%andb_true_iff]. simpl in *.
  by apply bool_decide_eq_true in Hv.
Qed.


(** * The claims *)

(** C1.  At every reachable state of the relay, a room id is listed in the
    directory if and only if its participant mapping is non-empty.  A
    join_room stores the joining socket under its user id in the named room,
    creating the room when it was absent and keeping the participants it
    had otherwise, and touches no other room; a close of a bound connection
    removes its user id from its room and, in the same handler run, the
    room itself when nobody is left, and touches no other room. *)
Theorem room_listed_iff_occupied (tr : list event) :
  let s := run tr in
  (∀ rid, jm_has rid (rooms s) = true ↔ room_participants rid s ≠ []) ∧
  (∀ ws m,
     accepted ws s = true → m_type m = JStr "join_room" →
     let s' := step s (EvMessage ws (Parsed m)) in
     room_participants (m_roomId m) s'
       = jm_set (m_userId m) ws (room_participants (m_roomId m) s) ∧
     (jm_has (m_roomId m) (rooms s) = false →
        room_participants (m_roomId m) s' = [(m_userId m, ws)]) ∧
     ∀ rid, rid ≠ m_roomId m → jm_get rid (rooms s') = jm_get rid (rooms s)) ∧
  (∀ ws,
     accepted ws s = true →
     truthy (currentRoomId_of ws s) = true → truthy (userId_of ws s) = true →
     let rid := currentRoomId_of ws s in
     let s' := step s (EvClose ws) in
     room_participants rid s' = jm_delete (userId_of ws s) (room_participants rid s) ∧
     (jm_has rid (rooms s') = false ↔
        jm_delete (userId_of ws s) (room_participants rid s) = []) ∧
     ∀ rid', rid' ≠ rid → jm_get rid' (rooms s') = jm_get rid' (rooms s)).
Proof.
  intros s. split; [apply listed_iff_occupied|]. split.
  - intros ws m Ha Hty s'.
    destruct (join_step s ws m Ha Hty) as (_ & Hps & Hoth). split_and!; [done| |done].
    intros Hno. fold s' in Hps. rewrite Hps.
    unfold s in Hno. apply unlisted_iff_empty in Hno. fold s in Hno. by rewrite Hno.
  - intros ws Ha Hr Hu rid s'.
    destruct (close_step s ws Ha Hr Hu) as (Hps & Hoth). split_and!; [done| |done].
    fold rid s' in Hps. rewrite <- Hps. unfold s', s. rewrite <- run_snoc.
    apply unlisted_iff_empty.
Qed.

(** C2 (as stated, refuted).  Two sockets share room "r"; the heartbeat of
    socket 0 fails and terminates it, so it is closing but still listed
    when socket 1 closes.  One of two participants leaves, one remains
    (user 1 on socket 0), and that remaining participant is sent no
    leave_room: the loop skips every socket that is not open. *)
Lemma close_skips_peer_that_is_not_open :
  let s := run [EvConnection 0; EvConnection 1;
                EvMessage 0 (join_frame "r" 1 "ann");
                EvMessage 1 (join_frame "r" 2 "bob");
                EvHeartbeat 0 true 0] in
  let s' := step s (EvClose 1) in
  currentRoomId_of 1 s = JStr "r" ∧ userId_of 1 s = JNum 2 ∧
  room_participants (JStr "r") s = [(JNum 1, 0); (JNum 2, 1)] ∧
  room_participants (JStr "r") s' = [(JNum 1, 0)] ∧
  wire s' = wire s ∧
  (0, LeaveNotice (JStr "r") (JNum 2)) ∉ wire s'.
Proof.
  vm_compute. split_and!; try reflexivity.
  intros Hin. apply elem_of_cons in Hin as [Heq|Hin]; [discriminate|].
  by apply elem_of_nil in Hin.
Qed.

(** C2 (amended).  When a connection closes that is bound to a room and a
    user id, and that user id is in the room's mapping of N entries: the
    connection leaves the registry, the user id's entry leaves the mapping,
    N-1 entries remain; for N = 1 the room leaves the directory and nothing
    is sent; for N > 1 the room stays and, unless a [send] raises, exactly
    the remaining participants whose socket is open are sent a leave_room
    with the room id and the departed user id, in mapping order. *)
Theorem close_leaves_room_and_notifies_open_peers
    (tr : list event) (ws : nat) (rid uid : jsval) (ps : list (jsval * nat)) :
  let s := run tr in
  accepted ws s = true →
  bound ws rid uid s →
  jm_get rid (rooms s) = Some (MkRoom ps) →
  jm_has uid ps = true →
  let s' := step s (EvClose ws) in
  let rest := jm_delete uid ps in
  let peers := attempts (λ _, true) (sockets s') rest in
  (ws ∉ connections s') ∧
  room_participants rid s' = rest ∧
  jm_get uid rest = None ∧
  S (jm_size rest) = jm_size ps ∧
  (jm_size ps = 1 → jm_has rid (rooms s') = false ∧ wire s' = wire s) ∧
  (1 < jm_size ps →
     jm_has rid (rooms s') = true ∧
     (any_raise (sockets s') peers = false →
      wire s' = wire s ++ to_wire (LeaveNotice rid uid) peers)).
Proof.
  intros s Ha (Hrid & Huid & Hr & Hu) Hg Hin s' rest peers. subst rid uid.
  destruct (close_step s ws Ha Hr Hu) as (Hps & _).
  fold s s' in Hps.
  assert (Hhas : jm_has (currentRoomId_of ws s) (rooms s') = false
                 ↔ room_participants (currentRoomId_of ws s) s' = []).
  { unfold s', s. rewrite <- run_snoc. apply unlisted_iff_empty. }
  rewrite Hps in Hhas.
  assert (Hold : room_participants (currentRoomId_of ws s) s = ps).
  { unfold room_participants. by rewrite Hg. }
  rewrite Hold in Hps, Hhas. fold rest in Hps, Hhas.
  destruct (rooms_wf_lookup _ _ _ (run_wf tr) Hg) as [Hwf _]. cbn in Hwf.
  assert (Hsz : S (jm_size rest) = jm_size ps).
  { apply jm_size_delete; [done|]. by apply jm_has_true. }
  assert (Hw : wire s' = wire s ++
    to_wire (LeaveNotice (currentRoomId_of ws s) (userId_of ws s))
            (before_raise (sockets s') peers)).
  { by apply (close_wire ws s (MkRoom ps)). }
  split_and!.
  - unfold s'. rewrite step_connections, Ha. set_solver.
  - done.
  - apply jm_get_delete_eq.
  - done.
  - intros H1. rewrite H1 in Hsz. injection Hsz as Hsz.
    apply length_zero_iff_nil in Hsz. split; [by apply Hhas|].
    rewrite Hw. subst peers. rewrite Hsz. simpl. by rewrite app_nil_r.
  - intros HN. split.
    + apply not_false_iff_true. intros Hh.
      apply Hhas in Hh. rewrite Hh in Hsz. simpl in Hsz. lia.
    + intros Hno. rewrite Hw. by rewrite before_raise_none.
Qed.

(** The amended C2 on the scenario of the specification: A and B share
    "r1", B closes, A is told; then A closes and the room is gone. *)
Lemma close_leaves_room_and_notifies_open_peers_witness :
  let tr := [EvConnection 0; EvConnection 1;
             EvMessage 0 (join_frame "r1" 10 "A");
             EvMessage 1 (join_frame "r1" 11 "B")] in
  let s := run tr in
  let s' := step s (EvClose 1) in
  (accepted 1 s = true ∧
   bound 1 (JStr "r1") (JNum 11) s ∧
   jm_get (JStr "r1") (rooms s) = Some (MkRoom [(JNum 10, 0); (JNum 11, 1)]) ∧
   jm_has (JNum 11) [(JNum 10, 0); (JNum 11, 1)] = true) ∧
  room_participants (JStr "r1") s' = [(JNum 10, 0)] ∧
  wire s' = wire s ++ [(0, LeaveNotice (JStr "r1") (JNum 11))].
Proof.
  intros tr s s'.
  assert (H1 : accepted 1 s = true) by (vm_compute; reflexivity).
  assert (H2 : bound 1 (JStr "r1") (JNum 11) s)
    by (repeat split; vm_compute; reflexivity).
  assert (H3 : jm_get (JStr "r1") (rooms s)
               = Some (MkRoom [(JNum 10, 0); (JNum 11, 1)]))
    by (vm_compute; reflexivity).
  assert (H4 : jm_has (JNum 11) [(JNum 10, 0); (JNum 11, 1)] = true)
    by (vm_compute; reflexivity).
  split; [by split_and!|].
  destruct (close_leaves_room_and_notifies_open_peers tr 1 _ _ _ H1 H2 H3 H4)
    as (_ & Hps & _ & _ & _ & HN).
  split; [exact Hps|].
  destruct HN as [_ Hw]; [vm_compute; lia|].
  apply Hw. vm_compute; reflexivity.
Defined.

(** A user id of 0 (or an empty room id) does not pass the guard: such a
    connection is not bound, its updates are dropped like those of a
    connection that never joined, and its close leaves its entry in the
    room. *)
Lemma user_id_zero_is_not_bound :
  let s := run [EvConnection 0; EvMessage 0 (join_frame "r" 0 "ann")] in
  let m := code_message "r" 0 "x=1" in
  room_participants (JStr "r") s = [(JNum 0, 0)] ∧
  ¬ bound 0 (JStr "r") (JNum 0) s ∧
  console (step s (EvMessage 0 (Parsed m)))
    = console s ++ [LogReceived (JStr "code_update"); WarnCodeNoContext] ∧
  room_participants (JStr "r") (step s (EvClose 0)) = [(JNum 0, 0)].
Proof.
  split_and!; try (vm_compute; reflexivity).
  intros (_ & _ & _ & Hu). vm_compute in Hu. discriminate.
Qed.

(** C3, at the failing input.  Socket 0 joins room "r" as user 1 and then
    again as user 2.  The first entry stays in the mapping, so the second
    join's notice, whose excluded id is 2, is sent to socket 0 through the
    entry of user 1, and so is the code_update socket 0 sends next: the
    sender gets its own messages back. *)
Theorem rejoined_sender_receives_own_messages :
  let s1 := run [EvConnection 0;
                 EvMessage 0 (join_frame "r" 1 "ann");
                 EvMessage 0 (join_frame "r" 2 "ann")] in
  let m := code_message "r" 2 "x=1" in
  let s2 := step s1 (EvMessage 0 (Parsed m)) in
  room_participants (JStr "r") s1 = [(JNum 1, 0); (JNum 2, 0)] ∧
  userId_of 0 s1 = JNum 2 ∧
  wire s1 = [(0, JoinNotice (JStr "r") (JNum 2) (JStr "ann"))] ∧
  wire s2 = wire s1 ++ [(0, Relayed m)].
Proof. vm_compute. by split_and!. Qed.




(** C5, at the failing input.  Room "r" holds sockets 0 and 1; socket 0 is
    broken, so that [send] raises on it.  When socket 2 joins, the notice
    loop stops at socket 0: socket 1 is never tried, the exception reaches
    the handler's [catch], and the joining sender is sent an error although
    its join went through.  The code_update loop, in the same state, wraps
    each [send] in a [try]: it logs the failure for socket 0, goes on to
    socket 1, and leaves the sender alone. *)
Theorem join_notice_aborts_on_first_failure :
  let s := run [EvConnection 0; EvConnection 1; EvConnection 2;
                EvMessage 0 (join_frame "r" 1 "ann");
                EvMessage 1 (join_frame "r" 2 "bob");
                EvSendFault 0 true] in
  let j := step s (EvMessage 2 (join_frame "r" 3 "cy")) in
  let m := code_message "r" 3 "x=1" in
  let u := step j (EvMessage 2 (Parsed m)) in
  room_participants (JStr "r") j = [(JNum 1, 0); (JNum 2, 1); (JNum 3, 2)] ∧
  is_open 1 s = true ∧ send_raises 1 s = false ∧
  wire j = wire s ++ [(2, ErrorNotice)] ∧
  wire u = wire j ++ [(1, Relayed m)] ∧
  console u = console j ++ [LogReceived (JStr "code_update"); ErrCodeSend (JNum 1)].
Proof. vm_compute. by split_and!. Qed.




(** C7, at the failing input.  Socket 0 joins room "a" and then room "b".
    Nothing takes it out of "a": it is listed in both rooms at once, and
    when it closes only "b" is cleaned, so "a" keeps a closed socket. *)
Theorem rejoin_keeps_old_room :
  let s := run [EvConnection 0;
                EvMessage 0 (join_frame "a" 1 "ann");
                EvMessage 0 (join_frame "b" 1 "ann")] in
  let c := step s (EvClose 0) in
  rooms s = [(JStr "a", MkRoom [(JNum 1, 0)]); (JStr "b", MkRoom [(JNum 1, 0)])] ∧
  rooms_of 0 (rooms s) = [JStr "a"; JStr "b"] ∧
  rooms c = [(JStr "a", MkRoom [(JNum 1, 0)])] ∧
  readyState_in (sockets c) 0 = CLOSED.
Proof. vm_compute. by split_and!. Qed.

(** C8.  A code_update or cursor_update arriving on an accepted connection
    that has processed no join_room so far is dropped: the state after the
    message is the state before it with two console lines added (the
    "received" line and the warning).  So nothing is put on the wire, to
    the sender or to anyone, and the directory, the registry, the
    statistics and all locals are as before. *)
Theorem update_before_join_is_dropped
    (tr : list event) (ws : nat) (m : message) :
  let s := run tr in
  accepted ws s = true →
  processed_join ws init tr = false →
  m_type m = JStr "code_update" ∨ m_type m = JStr "cursor_update" →
  step s (EvMessage ws (Parsed m)) =
    {| rooms := rooms s;
       connections := connections s;
       sockets := sockets s;
       lastStats := lastStats s;
       wire := wire s;
       console := console s ++
         [LogReceived (m_type m);
          if decide (m_type m = JStr "code_update")
          then WarnCodeNoContext else WarnCursorNoContext] |}.
Proof.
  intros s Ha Hnj Hty. cbn [step]. rewrite Ha.
  destruct (run_ids_unbound ws tr Hnj) as [Hu Hr]. fold s in Hu, Hr.
  unfold exec, on_message.
  cbv [try_catch mbind M_bind mret M_ret parse_message dispatch console_log modify].
  rewrite decide_False by (by destruct Hty as [-> | ->]).
  destruct Hty as [Hty|Hty].
  - rewrite !decide_True by done. rewrite update_exec. cbn zeta.
    unfold currentRoomId_of, userId_of in *. cbn [with_console sockets].
    rewrite Hr, Hu. cbn. by rewrite <- app_assoc.
  - rewrite (decide_False (P := m_type m = JStr "code_update")) by (by rewrite Hty).
    rewrite decide_True by done.
    rewrite (decide_False (P := m_type m = JStr "code_update")) by (by rewrite Hty).
    rewrite update_exec. cbn zeta.
    unfold currentRoomId_of, userId_of in *. cbn [with_console sockets].
    rewrite Hr, Hu. cbn. by rewrite <- app_assoc.
Qed.

(** C8 on a connection that sends a code_update without having joined,
    while another connection is in the room. *)
Lemma update_before_join_is_dropped_witness :
  let tr := [EvConnection 0; EvConnection 1;
             EvMessage 0 (join_frame "r1" 10 "A")] in
  let s := run tr in
  let m := code_message "r1" 11 "x=1" in
  (accepted 1 s = true ∧
   processed_join 1 init tr = false ∧
   (m_type m = JStr "code_update" ∨ m_type m = JStr "cursor_update")) ∧
  wire (step s (EvMessage 1 (Parsed m))) = wire s ∧
  rooms (step s (EvMessage 1 (Parsed m))) = rooms s.
Proof.
  intros tr s m.
  assert (H1 : accepted 1 s = true) by (vm_compute; reflexivity).
  assert (H2 : processed_join 1 init tr = false) by (vm_compute; reflexivity).
  assert (H3 : m_type m = JStr "code_update" ∨ m_type m = JStr "cursor_update")
    by (by left).
  split; [by split_and!|].
  pose proof (update_before_join_is_dropped tr 1 m H1 H2 H3) as Heq.
  fold s in Heq. rewrite Heq. by split.
Defined.

(** C9.  In a reachable state where room r stores socket c1 under user id
    u, a join_room for u in r arriving on another accepted socket c2
    overwrites the stored reference with c2: u is held exactly once, the
    mapping has the same user ids in the same order as before, and c1 is
    left alone, its socket record (ready state, heartbeat timer, locals)
    and its place in the registry being what they were. *)
Theorem duplicate_join_replaces_reference
    (tr : list event) (c1 c2 : nat) (m : message) (ps : list (jsval * nat)) :
  let s := run tr in
  accepted c2 s = true →
  m_type m = JStr "join_room" →
  jm_get (m_roomId m) (rooms s) = Some (MkRoom ps) →
  jm_get (m_userId m) ps = Some c1 →
  c2 ≠ c1 →
  let s' := step s (EvMessage c2 (Parsed m)) in
  let ps' := room_participants (m_roomId m) s' in
  jm_get (m_userId m) ps' = Some c2 ∧
  length (filter (λ e, e.1 = m_userId m) ps') = 1 ∧
  jm_keys ps' = jm_keys ps ∧
  sockets s' !! c1 = sockets s !! c1 ∧
  (c1 ∈ connections s' ↔ c1 ∈ connections s).
Proof.
  intros s Ha Hty Hg Hu Hne s' ps'.
  destruct (join_step s c2 m Ha Hty) as (_ & Hps & _).
  fold s' ps' in Hps.
  assert (Hold : room_participants (m_roomId m) s = ps).
  { unfold room_participants. by rewrite Hg. }
  rewrite Hold in Hps.
  destruct (rooms_wf_lookup _ _ _ (run_wf tr) Hg) as [Hwf _]. cbn in Hwf.
  split_and!.
  - rewrite Hps. apply jm_get_set_eq.
  - rewrite Hps. by apply jm_keys_set_count.
  - rewrite Hps. apply jm_keys_set_old.
    apply jm_get_Some_elem in Hu. by eapply jm_elem_keys.
  - unfold s'. rewrite step_sockets, Ha. simpl. rewrite bool_decide_true by done.
    by rewrite lookup_alter_ne.
  - unfold s'. by rewrite step_connections.
Qed.

(** C9 on two sockets that join "r1" as the same user 10. *)
Lemma duplicate_join_replaces_reference_witness :
  let tr := [EvConnection 0; EvConnection 1;
             EvMessage 0 (join_frame "r1" 10 "A")] in
  let s := run tr in
  let m := {| m_type := JStr "join_room"; m_roomId := JStr "r1";
              m_userId := JNum 10; m_username := JStr "A"; m_rest := "" |} in
  let s' := step s (EvMessage 1 (Parsed m)) in
  (accepted 1 s = true ∧ m_type m = JStr "join_room" ∧
   jm_get (m_roomId m) (rooms s) = Some (MkRoom [(JNum 10, 0)]) ∧
   jm_get (m_userId m) [(JNum 10, 0)] = Some 0 ∧ 1 ≠ 0) ∧
  jm_get (JNum 10) (room_participants (JStr "r1") s') = Some 1 ∧
  sockets s' !! 0 = sockets s !! 0.
Proof.
  intros tr s m s'.
  assert (H1 : accepted 1 s = true) by (vm_compute; reflexivity).
  assert (H2 : m_type m = JStr "join_room") by reflexivity.
  assert (H3 : jm_get (m_roomId m) (rooms s) = Some (MkRoom [(JNum 10, 0)]))
    by (vm_compute; reflexivity).
  assert (H4 : jm_get (m_userId m) [(JNum 10, 0)] = Some 0)
    by (vm_compute; reflexivity).
  assert (H5 : 1 ≠ 0) by lia.
  split; [by split_and!|].
  destruct (duplicate_join_replaces_reference tr 0 1 m _ H1 H2 H3 H4 H5)
    as (Hget & _ & _ & Hk & _).
  split; [exact Hget|exact Hk].
Defined.

(** C10 (as stated, refuted).  Sockets 0 and then 1 join "r1" as user 10,
    socket 2 joins as user 12; the heartbeat of socket 2 fails and
    terminates it, so it is closing but still listed when socket 0 closes.
    The entry under 10, which is socket 1's, is removed and user 12
    remains, but that remaining participant is sent no leave_room: the
    loop skips every socket that is not open. *)
Lemma close_by_user_id_skips_peer_that_is_not_open :
  let s := run [EvConnection 0; EvConnection 1; EvConnection 2;
                EvMessage 0 (join_frame "r1" 10 "A");
                EvMessage 2 (join_frame "r1" 12 "C");
                EvMessage 1 (join_frame "r1" 10 "A");
                EvHeartbeat 2 true 0] in
  let s' := step s (EvClose 0) in
  currentRoomId_of 0 s = JStr "r1" ∧ userId_of 0 s = JNum 10 ∧
  room_participants (JStr "r1") s = [(JNum 10, 1); (JNum 12, 2)] ∧
  room_participants (JStr "r1") s' = [(JNum 12, 2)] ∧
  wire s' = wire s ∧
  (2, LeaveNotice (JStr "r1") (JNum 10)) ∉ wire s'.
Proof.
  vm_compute. split_and!; try reflexivity.
  intros Hin.
  repeat (apply elem_of_cons in Hin as [Heq|Hin]; [discriminate|]).
  by apply elem_of_nil in Hin.
Qed.

(** C10 (amended).  Let c1 be an accepted connection bound to room r and
    user id u (both pass [currentRoomId && userId]), while r's mapping
    stores another socket c2 under u.  When c1 closes, the entry under u,
    that is c2's, is removed; r leaves the directory exactly when nothing
    remains; a leave_room naming r and u is sent round the remaining
    entries whose socket is open, in mapping order, up to the first raising
    [send], hence to every open one when none raises, and a remaining entry
    whose socket is not open is skipped; and nothing tells c2, whose socket
    record still names r and u. *)
Theorem close_removes_by_user_id
    (tr : list event) (c1 c2 : nat) (rid uid : jsval) (ps : list (jsval * nat)) :
  let s := run tr in
  accepted c1 s = true →
  bound c1 rid uid s →
  jm_get rid (rooms s) = Some (MkRoom ps) →
  jm_get uid ps = Some c2 →
  c2 ≠ c1 →
  let s' := step s (EvClose c1) in
  let rest := jm_delete uid ps in
  let peers := attempts (λ _, true) (sockets s') rest in
  room_participants rid s' = rest ∧
  jm_get uid rest = None ∧
  (∀ v d, (v, d) ∈ rest ↔ (v, d) ∈ ps ∧ v ≠ uid) ∧
  (jm_has rid (rooms s') = false ↔ rest = []) ∧
  wire s' = wire s ++
    to_wire (LeaveNotice rid uid) (before_raise (sockets s') peers) ∧
  (any_raise (sockets s') peers = false →
   wire s' = wire s ++ to_wire (LeaveNotice rid uid) peers) ∧
  sockets s' !! c2 = sockets s !! c2.
Proof.
  intros s Ha (Hrid & Huid & Hr & Hu) Hg Hc2 Hne s' rest peers. subst rid uid.
  destruct (close_step s c1 Ha Hr Hu) as (Hps & _).
  fold s s' in Hps.
  assert (Hold : room_participants (currentRoomId_of c1 s) s = ps).
  { unfold room_participants. by rewrite Hg. }
  rewrite Hold in Hps. fold rest in Hps.
  assert (Hw : wire s' = wire s ++
    to_wire (LeaveNotice (currentRoomId_of c1 s) (userId_of c1 s))
            (before_raise (sockets s') peers)).
  { by apply (close_wire c1 s (MkRoom ps)). }
  split_and!.
  - done.
  - apply jm_get_delete_eq.
  - intros v d. apply jm_elem_delete.
  - rewrite <- Hps. unfold s', s. rewrite <- run_snoc. apply unlisted_iff_empty.
  - done.
  - intros Hno. rewrite Hw. by rewrite before_raise_none.
  - unfold s'. rewrite step_sockets, Ha. by rewrite !lookup_alter_ne.
Qed.

(** C10 with three sockets: 0 and then 1 join "r1" as user 10, 2 joins as
    user 12; socket 0 closes and it is socket 1's entry that goes. *)
Lemma close_removes_by_user_id_witness :
  let tr := [EvConnection 0; EvConnection 1; EvConnection 2;
             EvMessage 0 (join_frame "r1" 10 "A");
             EvMessage 2 (join_frame "r1" 12 "C");
             EvMessage 1 (join_frame "r1" 10 "A")] in
  let s := run tr in
  let s' := step s (EvClose 0) in
  (accepted 0 s = true ∧
   bound 0 (JStr "r1") (JNum 10) s ∧
   jm_get (JStr "r1") (rooms s) = Some (MkRoom [(JNum 10, 1); (JNum 12, 2)]) ∧
   jm_get (JNum 10) [(JNum 10, 1); (JNum 12, 2)] = Some 1 ∧ 1 ≠ 0) ∧
  room_participants (JStr "r1") s' = [(JNum 12, 2)] ∧
  wire s' = wire s ++ [(2, LeaveNotice (JStr "r1") (JNum 10))] ∧
  sockets s' !! 1 = sockets s !! 1.
Proof.
  intros tr s s'.
  assert (H1 : accepted 0 s = true) by (vm_compute; reflexivity).
  assert (H2 : bound 0 (JStr "r1") (JNum 10) s)
    by (repeat split; vm_compute; reflexivity).
  assert (H3 : jm_get (JStr "r1") (rooms s)
               = Some (MkRoom [(JNum 10, 1); (JNum 12, 2)]))
    by (vm_compute; reflexivity).
  assert (H4 : jm_get (JNum 10) [(JNum 10, 1); (JNum 12, 2)] = Some 1)
    by (vm_compute; reflexivity).
  assert (H5 : 1 ≠ 0) by lia.
  split; [by split_and!|].
  destruct (close_removes_by_user_id tr 0 1 _ _ _ H1 H2 H3 H4 H5)
    as (Hps & _ & _ & _ & _ & Hw & Hk).
  split; [exact Hps|]. split; [|exact Hk].
  apply Hw. vm_compute; reflexivity.
Defined.

(** * Further properties of the relay *)

(** ** Messages *)

Lemma on_message_update_exec ws m s :
  is_update (m_type m) = true →
  on_message ws (Parsed m) s =
  update ws m
    (if decide (m_type m = JStr "code_update")
     then WarnCodeNoContext else WarnCursorNoContext)
    (room_missing (m_type m)) (send_failed (m_type m))
    (with_console (console s ++ [LogReceived (m_type m)]) s).
Proof.
  intros Hty. unfold on_message, room_missing, send_failed.
  cbv [try_catch mbind M_bind mret M_ret parse_message dispatch console_log modify].
  apply orb_true_iff in Hty as [Hty%bool_decide_eq_true|Hty%bool_decide_eq_true].
  - rewrite decide_False by (by rewrite Hty). rewrite !decide_True by done.
    rewrite update_exec. cbn zeta.
    destruct (_ || _); [done|]. by destruct (jm_get _ _).
  - rewrite decide_False by (by rewrite Hty).
    rewrite !(decide_False (P := m_type m = JStr "code_update")) by (by rewrite Hty).
    rewrite decide_True by done.
    rewrite update_exec. cbn zeta.
    destruct (_ || _); [done|]. by destruct (jm_get _ _).
Qed.

Lemma on_message_ignored_exec ws m s :
  m_type m ≠ JStr "join_room" → is_update (m_type m) = false →
  on_message ws (Parsed m) s =
  (Returned tt, with_console (console s ++ [LogReceived (m_type m)]) s).
Proof.
  intros Hj [Hc%bool_decide_eq_false Hu%bool_decide_eq_false]%orb_false_iff.
  unfold on_message.
  cbv [try_catch mbind M_bind mret M_ret parse_message dispatch console_log modify].
  by rewrite !decide_False by done.
Qed.

Lemma sound_sub k l e : e ∈ sound k l → e ∈ l ∧ raises_in k e.2 = false.
Proof.
  unfold sound. rewrite list_elem_of_In, filter_In, <- list_elem_of_In.
  intros [Hin Hr]. split; [done|]. by apply negb_true_iff.
Qed.

Lemma before_raise_sub k l e : e ∈ before_raise k l → e ∈ l ∧ raises_in k e.2 = false.
Proof.
  induction l as [|x l IH]; simpl; [by intros ?%elem_of_nil|].
  destruct (raises_in k x.2) eqn:Hr; [by intros ?%elem_of_nil|].
  intros [->|Hin]%elem_of_cons.
  - split; [apply elem_of_cons; by left|done].
  - destruct (IH Hin). split; [apply elem_of_cons; by right|done].
Qed.

Lemma elem_of_to_wire p l d q :
  (d, q) ∈ to_wire p l ↔ q = p ∧ ∃ v, (v, d) ∈ l.
Proof.
  unfold to_wire. rewrite list_elem_of_In, in_map_iff. split.
  - intros ([v d'] & [= <- <-] & Hin). split; [done|].
    exists v. by apply list_elem_of_In.
  - intros [-> [v Hin]]. exists (v, d). split; [done|]. by apply list_elem_of_In.
Qed.

(** X1.  A code_update or cursor_update on a connection bound to a room that is
    in the directory: whatever [roomId] and [userId] the message carries,
    it is the connection's own room that is served and the connection's own
    user id that is excluded.  The message goes out as received, once per
    entry, to the entries with another user id whose socket is open and
    whose [send] does not raise; each raising [send] gets a console line;
    nothing else of the state moves, and the handler does not raise. *)
Theorem update_is_relayed_to_own_room
    (s : state) (ws : nat) (m : message) (rid uid : jsval) (room : Room) :
  accepted ws s = true →
  is_update (m_type m) = true →
  bound ws rid uid s →
  jm_get rid (rooms s) = Some room →
  let to := attempts (other_than uid) (sockets s) (participants room) in
  on_message ws (Parsed m) s =
    (Returned tt,
     {| rooms := rooms s;
        connections := connections s;
        sockets := sockets s;
        lastStats := lastStats s;
        wire := wire s ++ to_wire (Relayed m) (sound (sockets s) to);
        console := console s ++ LogReceived (m_type m) ::
                   map (λ e, send_failed (m_type m) e.1) (broken (sockets s) to) |}) ∧
  ∀ d p, (d, p) ∈ new_wire s (step s (EvMessage ws (Parsed m))) →
    p = Relayed m ∧
    ∃ v, (v, d) ∈ participants room ∧ v ≠ uid ∧ is_open d s = true.
Proof.
  intros Ha Hty (Hrid & Huid & Hr & Hu) Hg to.
  assert (Hexec : on_message ws (Parsed m) s =
    (Returned tt,
     {| rooms := rooms s; connections := connections s; sockets := sockets s;
        lastStats := lastStats s;
        wire := wire s ++ to_wire (Relayed m) (sound (sockets s) to);
        console := console s ++ LogReceived (m_type m) ::
                   map (λ e, send_failed (m_type m) e.1) (broken (sockets s) to) |})).
  { rewrite on_message_update_exec by done. rewrite update_exec. cbn zeta.
    unfold currentRoomId_of, userId_of in *. cbn [with_console sockets rooms].
    rewrite Hrid, Huid, Hr, Hu. cbn [negb orb]. rewrite Hg.
    unfold with_console, with_wire; cbn. by rewrite <- app_assoc. }
  split; [done|].
  intros d p. cbn [step]. rewrite Ha. unfold exec. rewrite Hexec.
  unfold new_wire. cbn [snd wire]. rewrite drop_app_length.
  intros [-> [v Hin]]%elem_of_to_wire.
  split; [done|]. exists v.
  apply sound_sub in Hin as [Hin _].
  apply attempts_other_than in Hin as (Hv & Hin & Ho). done.
Qed.

(** X1 where the frame names another room and another user than the sender's own. *)
Lemma update_is_relayed_to_own_room_witness :
  let s := run [EvConnection 0; EvConnection 1; EvConnection 2;
                EvMessage 0 (join_frame "r1" 10 "A");
                EvMessage 1 (join_frame "r1" 11 "B");
                EvMessage 2 (join_frame "r2" 12 "C")] in
  let m := code_message "r2" 12 "x=1" in
  (accepted 0 s = true ∧ is_update (m_type m) = true ∧
   bound 0 (JStr "r1") (JNum 10) s ∧
   jm_get (JStr "r1") (rooms s) = Some (MkRoom [(JNum 10, 0); (JNum 11, 1)])) ∧
  wire (step s (EvMessage 0 (Parsed m))) = wire s ++ [(1, Relayed m)].
Proof.
  intros s m.
  assert (H1 : accepted 0 s = true) by (vm_compute; reflexivity).
  assert (H2 : is_update (m_type m) = true) by (vm_compute; reflexivity).
  assert (H3 : bound 0 (JStr "r1") (JNum 10) s)
    by (repeat split; vm_compute; reflexivity).
  assert (H4 : jm_get (JStr "r1") (rooms s)
               = Some (MkRoom [(JNum 10, 0); (JNum 11, 1)]))
    by (vm_compute; reflexivity).
  split; [by split_and!|].
  destruct (update_is_relayed_to_own_room s 0 m _ _ _ H1 H2 H3 H4) as [Hexec _].
  cbn [step]. rewrite H1. unfold exec. rewrite Hexec. cbn [snd wire].
  f_equal.
Defined.

(** X2.  A code_update or cursor_update on a bound connection whose room
    is not in the directory any more is dropped: one "received" line and one
    "room not found" line on the console, nothing on the wire (no error goes
    back to the sender), and nothing else moves. *)
Theorem update_for_missing_room_is_dropped
    (s : state) (ws : nat) (m : message) (rid uid : jsval) :
  accepted ws s = true →
  is_update (m_type m) = true →
  bound ws rid uid s →
  jm_get rid (rooms s) = None →
  step s (EvMessage ws (Parsed m)) =
    {| rooms := rooms s;
       connections := connections s;
       sockets := sockets s;
       lastStats := lastStats s;
       wire := wire s;
       console := console s ++
         [LogReceived (m_type m); room_missing (m_type m) rid] |}.
Proof.
  intros Ha Hty (Hrid & Huid & Hr & Hu) Hg.
  cbn [step]. rewrite Ha. unfold exec.
  rewrite on_message_update_exec by done. rewrite update_exec. cbn zeta.
  unfold currentRoomId_of, userId_of in *. cbn [with_console sockets rooms].
  rewrite Hrid, Huid, Hr, Hu. cbn [negb orb]. rewrite Hg.
  unfold with_console; cbn. by rewrite <- app_assoc.
Qed.

(** X2 after a second socket joined as the same user and left, taking the room with it. *)
Lemma update_for_missing_room_is_dropped_witness :
  let s := run [EvConnection 0; EvConnection 1;
                EvMessage 0 (join_frame "r1" 10 "A");
                EvMessage 1 (join_frame "r1" 10 "A");
                EvClose 1] in
  let m := code_message "r1" 10 "x=1" in
  (accepted 0 s = true ∧ is_update (m_type m) = true ∧
   bound 0 (JStr "r1") (JNum 10) s ∧ jm_get (JStr "r1") (rooms s) = None) ∧
  wire (step s (EvMessage 0 (Parsed m))) = wire s.
Proof.
  intros s m.
  assert (H1 : accepted 0 s = true) by (vm_compute; reflexivity).
  assert (H2 : is_update (m_type m) = true) by (vm_compute; reflexivity).
  assert (H3 : bound 0 (JStr "r1") (JNum 10) s)
    by (repeat split; vm_compute; reflexivity).
  assert (H4 : jm_get (JStr "r1") (rooms s) = None) by (vm_compute; reflexivity).
  split; [by split_and!|].
  by rewrite (update_for_missing_room_is_dropped s 0 m _ _ H1 H2 H3 H4).
Defined.

(** X3.  A frame that parses to a value whose [type] is none of
    join_room, code_update, cursor_update (a leave_room frame, a frame
    without [type], a number) falls through the [switch]: the console gets
    the "received" line and nothing else happens.  In particular an inbound
    leave_room removes nobody. *)
Theorem other_types_are_ignored (s : state) (ws : nat) (m : message) :
  accepted ws s = true →
  m_type m ≠ JStr "join_room" →
  is_update (m_type m) = false →
  step s (EvMessage ws (Parsed m)) =
    {| rooms := rooms s;
       connections := connections s;
       sockets := sockets s;
       lastStats := lastStats s;
       wire := wire s;
       console := console s ++ [LogReceived (m_type m)] |}.
Proof.
  intros Ha Hj Hu. cbn [step]. rewrite Ha. unfold exec.
  by rewrite on_message_ignored_exec.
Qed.

(** X3 on an inbound leave_room frame. *)
Lemma other_types_are_ignored_witness :
  let s := run [EvConnection 0; EvConnection 1;
                EvMessage 0 (join_frame "r1" 10 "A");
                EvMessage 1 (join_frame "r1" 11 "B")] in
  let m := {| m_type := JStr "leave_room"; m_roomId := JStr "r1";
              m_userId := JNum 11; m_username := JStr "B"; m_rest := "" |} in
  (accepted 1 s = true ∧ m_type m ≠ JStr "join_room" ∧
   is_update (m_type m) = false) ∧
  room_participants (JStr "r1") (step s (EvMessage 1 (Parsed m)))
    = [(JNum 10, 0); (JNum 11, 1)] ∧
  wire (step s (EvMessage 1 (Parsed m))) = wire s.
Proof.
  intros s m.
  assert (H1 : accepted 1 s = true) by (vm_compute; reflexivity).
  assert (H2 : m_type m ≠ JStr "join_room") by discriminate.
  assert (H3 : is_update (m_type m) = false) by (vm_compute; reflexivity).
  split; [by split_and!|].
  rewrite (other_types_are_ignored s 1 m H1 H2 H3).
  split; vm_compute; reflexivity.
Defined.

(** ** Joins *)

Lemma jm_size_set_new {K V} `{EqDecision K} (k : K) (v : V) m :
  jm_get k m = None → jm_size (jm_set k v m) = S (jm_size m).
Proof.
  unfold jm_size. induction m as [|[k' v'] m IH]; simpl; [done|].
  destruct (decide (k = k')); [done|]. intros Hg. simpl. by rewrite IH.
Qed.

Lemma jm_size_set_old {K V} `{EqDecision K} (k : K) (v : V) m :
  is_Some (jm_get k m) → jm_size (jm_set k v m) = jm_size m.
Proof.
  unfold jm_size. induction m as [|[k' v'] m IH]; simpl; [by intros [? ?]|].
  destruct (decide (k = k')); [done|]. intros Hg. simpl. by rewrite IH.
Qed.

Lemma join_step_exec ws m s :
  accepted ws s = true → m_type m = JStr "join_room" →
  let uid := m_userId m in
  let rid := m_roomId m in
  let ps := jm_set uid ws (room_participants rid s) in
  let to := attempts (other_than uid) (sockets s) ps in
  let s1 :=
    {| rooms := jm_set rid (MkRoom ps) (rooms s);
       connections := connections s;
       sockets := alter (bind_ids uid rid) ws (sockets s);
       lastStats := lastStats s;
       wire := wire s ++
         to_wire (JoinNotice rid uid (m_username m)) (before_raise (sockets s) to);
       console := (console s ++ [LogReceived (m_type m)]) ++
         (if jm_has rid (rooms s) then [] else [LogRoomCreated rid]) ++
         [LogJoined uid rid (jm_size ps)] |} in
  step s (EvMessage ws (Parsed m)) =
    if any_raise (sockets s) to then exec (on_message_catch ws) s1 else s1.
Proof.
  intros Ha Hty uid rid ps to s1. cbn [step]. rewrite Ha. unfold exec.
  rewrite on_message_join_exec by done. cbn zeta. rewrite join_room_exec.
  cbn zeta. cbn [with_console sockets rooms wire console].
  fold uid rid. unfold room_participants in *. cbn [with_console rooms].
  fold ps. fold to. by destruct (any_raise (sockets s) to).
Qed.

(** X4.  A join_room naming a room that is not in the directory creates
    it with the joining socket as its only participant, binds the socket to
    the room id and user id of the message, and notifies nobody: the wire is
    as before.  The directory has grown by one room while the statistics
    still show the old count. *)
Theorem first_join_creates_room (s : state) (ws : nat) (m : message) :
  accepted ws s = true →
  m_type m = JStr "join_room" →
  jm_has (m_roomId m) (rooms s) = false →
  let s' := step s (EvMessage ws (Parsed m)) in
  s' = {| rooms := jm_set (m_roomId m) (MkRoom [(m_userId m, ws)]) (rooms s);
          connections := connections s;
          sockets := alter (bind_ids (m_userId m) (m_roomId m)) ws (sockets s);
          lastStats := lastStats s;
          wire := wire s;
          console := console s ++
            [LogReceived (m_type m); LogRoomCreated (m_roomId m);
             LogJoined (m_userId m) (m_roomId m) 1] |} ∧
  jm_size (rooms s') = S (jm_size (rooms s)) ∧
  activeRooms (lastStats s') = activeRooms (lastStats s).
Proof.
  intros Ha Hty Hno s'.
  assert (Hs' : s' =
    {| rooms := jm_set (m_roomId m) (MkRoom [(m_userId m, ws)]) (rooms s);
       connections := connections s;
       sockets := alter (bind_ids (m_userId m) (m_roomId m)) ws (sockets s);
       lastStats := lastStats s;
       wire := wire s;
       console := console s ++
         [LogReceived (m_type m); LogRoomCreated (m_roomId m);
          LogJoined (m_userId m) (m_roomId m) 1] |}).
  { unfold s'. rewrite join_step_exec by done. cbn zeta.
    rewrite Hno. unfold room_participants.
    apply jm_has_false in Hno. rewrite Hno. cbn [jm_set].
    unfold attempts, other_than. cbn [List.filter fst snd].
    rewrite bool_decide_false by (intros H; by apply H).
    cbn. by rewrite app_nil_r, <- app_assoc. }
  split; [done|]. rewrite Hs'. cbn [rooms lastStats]. split; [|done].
  apply jm_size_set_new. by apply jm_has_false.
Qed.

(** X4 on a second room. *)
Lemma first_join_creates_room_witness :
  let s := run [EvConnection 0; EvConnection 1;
                EvMessage 0 (join_frame "r1" 10 "A")] in
  let m := {| m_type := JStr "join_room"; m_roomId := JStr "r2";
              m_userId := JNum 11; m_username := JStr "B"; m_rest := "" |} in
  (accepted 1 s = true ∧ m_type m = JStr "join_room" ∧
   jm_has (m_roomId m) (rooms s) = false) ∧
  jm_size (rooms (step s (EvMessage 1 (Parsed m)))) = 2 ∧
  wire (step s (EvMessage 1 (Parsed m))) = wire s.
Proof.
  intros s m.
  assert (H1 : accepted 1 s = true) by (vm_compute; reflexivity).
  assert (H2 : m_type m = JStr "join_room") by reflexivity.
  assert (H3 : jm_has (m_roomId m) (rooms s) = false) by (vm_compute; reflexivity).
  split; [by split_and!|].
  destruct (first_join_creates_room s 1 m H1 H2 H3) as (Heq & Hsz & _).
  split; [exact Hsz|]. by rewrite Heq.
Defined.

(** X5.  A join_room into a room that is in the directory, when no
    [send] raises: the socket is stored under the message's user id (added
    at the end, or put in place of the socket stored there), the directory
    keeps its size, and exactly the participants with another user id whose
    socket is open are sent one join_room notice carrying the room id, the
    user id and the username of the message, in mapping order. *)
Theorem join_notifies_other_participants
    (s : state) (ws : nat) (m : message) (room : Room) :
  accepted ws s = true →
  m_type m = JStr "join_room" →
  jm_get (m_roomId m) (rooms s) = Some room →
  let ps := jm_set (m_userId m) ws (participants room) in
  let to := attempts (other_than (m_userId m)) (sockets s) ps in
  any_raise (sockets s) to = false →
  let s' := step s (EvMessage ws (Parsed m)) in
  room_participants (m_roomId m) s' = ps ∧
  jm_size (rooms s') = jm_size (rooms s) ∧
  bound_ids_are ws (m_roomId m) (m_userId m) s' ∧
  wire s' = wire s ++
    to_wire (JoinNotice (m_roomId m) (m_userId m) (m_username m)) to ∧
  ∀ v d, (v, d) ∈ to ↔
    (v, d) ∈ participants room ∧ v ≠ m_userId m ∧ is_open d s = true.
Proof.
  intros Ha Hty Hg ps to Hno s'.
  assert (Hold : room_participants (m_roomId m) s = participants room).
  { unfold room_participants. by rewrite Hg. }
  assert (Hs' : s' = _) by (unfold s'; by rewrite join_step_exec by done).
  cbn zeta in Hs'. rewrite Hold in Hs'. fold ps to in Hs'. rewrite Hno in Hs'.
  rewrite Hs'. unfold room_participants, bound_ids_are, currentRoomId_of, userId_of.
  cbn [rooms sockets wire]. split; [|split; [|split; [|split]]].
  - by rewrite jm_get_set_eq.
  - apply jm_size_set_old. by eexists.
  - rewrite lookup_alter_eq.
    apply bool_decide_eq_true in Ha as [k Hk]. by rewrite Hk.
  - by rewrite before_raise_none.
  - intros v d. unfold to, attempts.
    rewrite list_elem_of_In, filter_In, <- list_elem_of_In. cbn [fst snd].
    rewrite andb_true_iff. unfold other_than. rewrite bool_decide_eq_true.
    unfold is_open. split.
    + intros (Hin & Hv & Ho). split_and!; [|done|done].
      apply jm_elem_set in Hin as [[? _]|Hin]; done.
    + intros (Hin & Hv & Ho). split_and!; [|done|done].
      clear -Hin Hv. unfold ps. induction (participants room) as [|[k0 d0] l IH];
        [by apply elem_of_nil in Hin|]. cbn [jm_set].
      apply elem_of_cons in Hin as [[= <- <-]|Hin].
      * rewrite decide_False by done. apply elem_of_cons. by left.
      * destruct (decide (m_userId m = k0)); apply elem_of_cons; right; auto.
Qed.

(** X5 on a third participant. *)
Lemma join_notifies_other_participants_witness :
  let s := run [EvConnection 0; EvConnection 1; EvConnection 2;
                EvMessage 0 (join_frame "r1" 10 "A");
                EvMessage 1 (join_frame "r1" 11 "B")] in
  let m := {| m_type := JStr "join_room"; m_roomId := JStr "r1";
              m_userId := JNum 12; m_username := JStr "C"; m_rest := "" |} in
  let n := JoinNotice (JStr "r1") (JNum 12) (JStr "C") in
  (accepted 2 s = true ∧ m_type m = JStr "join_room" ∧
   jm_get (m_roomId m) (rooms s) = Some (MkRoom [(JNum 10, 0); (JNum 11, 1)]) ∧
   any_raise (sockets s)
     (attempts (other_than (m_userId m)) (sockets s)
        (jm_set (m_userId m) 2 [(JNum 10, 0); (JNum 11, 1)])) = false) ∧
  wire (step s (EvMessage 2 (Parsed m))) = wire s ++ [(0, n); (1, n)].
Proof.
  intros s m n.
  assert (H1 : accepted 2 s = true) by (vm_compute; reflexivity).
  assert (H2 : m_type m = JStr "join_room") by reflexivity.
  assert (H3 : jm_get (m_roomId m) (rooms s)
               = Some (MkRoom [(JNum 10, 0); (JNum 11, 1)]))
    by (vm_compute; reflexivity).
  assert (H4 : any_raise (sockets s)
     (attempts (other_than (m_userId m)) (sockets s)
        (jm_set (m_userId m) 2 [(JNum 10, 0); (JNum 11, 1)])) = false)
    by (vm_compute; reflexivity).
  split; [by split_and!|].
  destruct (join_notifies_other_participants s 2 m _ H1 H2 H3 H4)
    as (_ & _ & _ & Hw & _).
  rewrite Hw. f_equal.
Defined.

(** ** What a message cannot do *)

Lemma message_keeps_stats s ws data :
  lastStats (step s (EvMessage ws data)) = lastStats s.
Proof.
  cbn [step]. destruct (accepted ws s) eqn:Ha; [|done].
  assert (Hcatch : ∀ t, lastStats (exec (on_message_catch ws) t) = lastStats t).
  { intros t. unfold exec. rewrite on_message_catch_exec. cbn zeta.
    destruct (is_open ws t); [destruct (send_raises ws t)|]; done. }
  destruct data as [| |m].
  - unfold exec. rewrite on_message_bad_exec by done. apply Hcatch.
  - unfold exec. rewrite on_message_bad_exec by done. apply Hcatch.
  - destruct (decide (m_type m = JStr "join_room")) as [Hj|Hj].
    + pose proof (join_step_exec ws m s Ha Hj) as Hs. cbn zeta in Hs.
      cbn [step] in Hs. rewrite Ha in Hs. rewrite Hs.
      destruct (any_raise _ _); [by rewrite Hcatch|done].
    + destruct (is_update (m_type m)) eqn:Hu.
      * unfold exec. rewrite on_message_update_exec by done.
        rewrite update_exec. cbn zeta.
        destruct (_ || _); [done|]. by destruct (jm_get _ _).
      * unfold exec. by rewrite on_message_ignored_exec.
Qed.

(** X6.  Whatever the frame, handling a message closes nothing and
    deregisters nobody: the registry, the statistics, and every socket's
    ready state, heartbeat timer and [clearInterval] count are as before,
    and so is every room other than the one a join_room names. *)
Theorem message_touches_one_room_only (s : state) (ws : nat) (data : frame) :
  let s' := step s (EvMessage ws data) in
  connections s' = connections s ∧
  lastStats s' = lastStats s ∧
  (∀ d, readyState_in (sockets s') d = readyState_in (sockets s) d ∧
        timer_armed d s' = timer_armed d s ∧
        clearIntervalCalls_of d s' = clearIntervalCalls_of d s) ∧
  (∀ rid, (∀ m, data = Parsed m → m_type m = JStr "join_room" → rid ≠ m_roomId m) →
          jm_get rid (rooms s') = jm_get rid (rooms s)).
Proof.
  intros s'. split; [|split; [|split]].
  - unfold s'. by rewrite step_connections.
  - apply message_keeps_stats.
  - intros d. unfold s', readyState_in, timer_armed, clearIntervalCalls_of.
    rewrite step_sockets. destruct data as [| |m]; try done.
    destruct (_ && _); [|done]. rewrite lookup_alter.
    case_decide; [subst d|done]. by destruct (sockets s !! ws).
  - intros rid Hrid. unfold s'. rewrite step_rooms.
    destruct data as [| |m]; try done.
    destruct (accepted ws s && is_join_room (Parsed m)) eqn:Hc; [|done].
    apply andb_true_iff in Hc as [_ Hj]. simpl in Hj.
    apply bool_decide_eq_true in Hj.
    unfold dir_join. rewrite jm_get_set_ne; [done|].
    intros Heq. by apply (Hrid m eq_refl Hj).
Qed.

(** ** Registry, timers and statistics *)

Lemma close_step_exec ws s :
  accepted ws s = true →
  let k := alter clear_timer ws (alter (set_readyState CLOSED) ws (sockets s)) in
  let s1 :=
    {| rooms := rooms s;
       connections := connections s ∖ {[ws]};
       sockets := k;
       lastStats := {| totalConnections := size (connections s ∖ {[ws]});
                       activeRooms := activeRooms (lastStats s);
                       lastPingTime := lastPingTime (lastStats s) |};
       wire := wire s;
       console := console s ++ [LogDisconnected] |} in
  let finish := (set_activeRooms;; logConnectionStats) : M unit in
  step s (EvClose ws) =
    if truthy (currentRoomId_of ws s) && truthy (userId_of ws s) then
      match leave (userId_of ws s) (currentRoomId_of ws s) s1 with
      | (Returned _, s2) => exec finish s2
      | (Threw, s2) => s2
      end
    else exec finish s1.
Proof.
  intros Ha k s1 finish. cbn [step]. rewrite Ha.
  unfold exec. unfold mbind at 1, M_bind at 1. mstep.
  rewrite on_close_exec. cbn zeta.
  unfold currentRoomId_of, userId_of. cbn [sockets].
  destruct (ids_alter (set_readyState CLOSED) ws (sockets s) ws) as [-> ->]; [done|].
  cbn [connections lastStats rooms wire console].
  destruct (_ && _); [|done].
  by destruct (leave _ _ _) as [[[]|] s2].
Qed.

(** X7.  After the close of an accepted connection the connection
    count of the statistics is the size of the registry; the room count is
    the size of the directory, unless a [send] of the leave_room loop
    raised, in which case the handler ended before refreshing it and the
    room count is the one from before. *)
Theorem close_refreshes_stats (s : state) (ws : nat) :
  accepted ws s = true →
  let s' := step s (EvClose ws) in
  totalConnections (lastStats s') = size (connections s') ∧
  (activeRooms (lastStats s') = jm_size (rooms s') ∨
   (activeRooms (lastStats s') = activeRooms (lastStats s) ∧
    any_raise (sockets s')
      (attempts (λ _, true) (sockets s')
         (room_participants (currentRoomId_of ws s) s')) = true)).
Proof.
  intros Ha s'. unfold s'. rewrite close_step_exec by done. cbn zeta.
  destruct (_ && _); [|by (mstep; auto)].
  rewrite leave_exec. cbn [rooms].
  destruct (jm_get _ (rooms s)) as [room|]; [|by (mstep; auto)].
  cbn zeta. case_decide; [by (mstep; auto)|].
  cbn [sockets with_rooms with_console].
  destruct (any_raise _ _) eqn:Hr; mstep; [|by auto].
  split; [done|]. right. split; [done|].
  unfold room_participants. cbn [rooms]. by rewrite jm_get_set_eq.
Qed.

(** X7 on a state whose room count was stale. *)
Lemma close_refreshes_stats_witness :
  let s := run [EvConnection 0; EvConnection 1;
                EvMessage 0 (join_frame "r1" 10 "A");
                EvMessage 1 (join_frame "r2" 11 "B")] in
  accepted 1 s = true ∧
  lastStats s = {| totalConnections := 2; activeRooms := 0;
                   lastPingTime := 0 |} ∧
  totalConnections (lastStats (step s (EvClose 1))) = 1.
Proof.
  intros s.
  assert (H1 : accepted 1 s = true) by (vm_compute; reflexivity).
  split; [exact H1|]. split; [vm_compute; reflexivity|].
  destruct (close_refreshes_stats s 1 H1) as [Ht _].
  rewrite Ht. vm_compute. reflexivity.
Defined.

Lemma step_total s e :
  totalConnections (lastStats s) = size (connections s) →
  totalConnections (lastStats (step s e)) = size (connections (step s e)).
Proof.
  intros Hinv.
  destruct e as [ws|ws data|ws|ws|ws|ws b t| |ws b].
  - cbn [step]. destruct (accepted ws s); [done|]. unfold on_connection. by mstep.
  - by rewrite message_keeps_stats, step_connections.
  - destruct (accepted ws s) eqn:Ha; [|by cbn [step]; rewrite Ha].
    by apply close_refreshes_stats.
  - cbn [step]. destruct (accepted ws s); [|done]. unfold on_error. by mstep.
  - cbn [step]. destruct (accepted ws s); [|done]. by mstep.
  - cbn [step]. destruct (timer_armed ws s); [|done].
    unfold heartbeat. mstep. destruct (open_in (sockets s) ws); mstep; [|done].
    by destruct b.
  - by mstep.
  - by mstep.
Qed.

(** X8.  At every reachable state the connection count kept in the
    statistics is the number of sockets in the registry. *)
Theorem total_connections_is_registry_size (tr : list event) :
  totalConnections (lastStats (run tr)) = size (connections (run tr)).
Proof.
  apply (run_ind (λ s, totalConnections (lastStats s) = size (connections s))).
  - done.
  - intros s e. apply step_total.
Qed.

Lemma step_timer s e ws :
  (ws ∈ connections s ↔ timer_armed ws s = true) →
  (ws ∈ connections (step s e) ↔ timer_armed ws (step s e) = true).
Proof.
  intros Hinv. unfold timer_armed in *. rewrite step_connections, step_sockets.
  destruct e as [ws'|ws' data|ws'|ws'|ws'|ws' b t| |ws' b]; try done.
  - destruct (accepted ws' s) eqn:Ha; [done|].
    destruct (decide (ws' = ws)) as [->|Hne].
    + rewrite lookup_insert_eq. cbn. set_solver.
    + rewrite lookup_insert_ne by done. rewrite <- Hinv. set_solver.
  - destruct data as [| |m]; try done. destruct (_ && _); [|done].
    rewrite lookup_alter. case_decide; [subst ws'|done].
    rewrite Hinv. by destruct (sockets s !! ws).
  - destruct (accepted ws' s) eqn:Ha; [|done].
    destruct (decide (ws' = ws)) as [->|Hne].
    + rewrite !lookup_alter_eq. apply bool_decide_eq_true in Ha as [k Hk].
      rewrite Hk. cbn. set_solver.
    + rewrite !lookup_alter_ne by done. rewrite <- Hinv. set_solver.
  - destruct (accepted ws' s) eqn:Ha; [|done].
    destruct (decide (ws' = ws)) as [->|Hne].
    + rewrite lookup_alter_eq. apply bool_decide_eq_true in Ha as [k Hk].
      rewrite Hk. cbn. set_solver.
    + rewrite lookup_alter_ne by done. rewrite <- Hinv. set_solver.
  - destruct (_ && _); [|done].
    rewrite lookup_alter. case_decide; [subst ws'|done].
    rewrite Hinv. by destruct (sockets s !! ws).
  - rewrite lookup_alter. case_decide; [subst ws'|done].
    rewrite Hinv. by destruct (sockets s !! ws).
Qed.

(** X9.  At every reachable state a socket is in the registry exactly
    when its heartbeat timer is armed: the timer is armed when the
    connection is registered, every path that deregisters it cancels the
    timer, and nothing else touches either.  No timer outlives its
    registration, and every registered socket is an accepted one. *)
Theorem registered_iff_timer_armed (tr : list event) (ws : nat) :
  (ws ∈ connections (run tr) ↔ timer_armed ws (run tr) = true) ∧
  (ws ∈ connections (run tr) → accepted ws (run tr) = true).
Proof.
  assert (Hinv : ws ∈ connections (run tr) ↔ timer_armed ws (run tr) = true).
  { apply (run_ind (λ s, ws ∈ connections s ↔ timer_armed ws s = true)).
    - unfold timer_armed. cbn. rewrite lookup_empty. set_solver.
    - intros s e. apply step_timer. }
  split; [done|]. intros Hin%Hinv. unfold timer_armed, accepted in *.
  apply bool_decide_eq_true. destruct (sockets (run tr) !! ws); [by eexists|done].
Qed.

(** ** The heartbeat *)

(** X10.  A heartbeat tick acts only when the timer is armed and the
    socket is open.  When the ping succeeds, the tick stores the current
    date in [lastStats.lastPingTime] and changes nothing else.  When the
    ping raises, the date is not stored, one console line is written and
    the socket is terminated (it is closing from then on), while it stays
    in the registry and its timer stays armed until its close event is
    handled; after that, further ticks on that socket do nothing, whether
    the ping would raise or not. *)
Theorem heartbeat_stamps_or_terminates
    (s : state) (ws : nat) (pingThrows : bool) (now : Z) :
  let s' := step s (EvHeartbeat ws pingThrows now) in
  s' = (if timer_armed ws s && is_open ws s then
          if pingThrows then
            {| rooms := rooms s;
               connections := connections s;
               sockets := alter (set_readyState CLOSING) ws (sockets s);
               lastStats := lastStats s;
               wire := wire s;
               console := console s ++ [ErrPingFailed] |}
          else
            {| rooms := rooms s;
               connections := connections s;
               sockets := sockets s;
               lastStats :=
                 {| totalConnections := totalConnections (lastStats s);
                    activeRooms := activeRooms (lastStats s);
                    lastPingTime := now |};
               wire := wire s;
               console := console s |}
        else s) ∧
  (timer_armed ws s && is_open ws s && pingThrows = true →
   readyState_in (sockets s') ws = CLOSING ∧
   timer_armed ws s' = true ∧
   ∀ again later, step s' (EvHeartbeat ws again later) = s').
Proof.
  intros s'.
  assert (Hs' : s' = if timer_armed ws s && is_open ws s then
          if pingThrows then
            {| rooms := rooms s; connections := connections s;
               sockets := alter (set_readyState CLOSING) ws (sockets s);
               lastStats := lastStats s; wire := wire s;
               console := console s ++ [ErrPingFailed] |}
          else
            {| rooms := rooms s; connections := connections s;
               sockets := sockets s;
               lastStats :=
                 {| totalConnections := totalConnections (lastStats s);
                    activeRooms := activeRooms (lastStats s);
                    lastPingTime := now |};
               wire := wire s; console := console s |}
        else s).
  { unfold s'. cbn [step]. destruct (timer_armed ws s); [|done]. cbn [andb].
    unfold heartbeat, is_open. mstep.
    destruct (open_in (sockets s) ws); mstep; [|done]. by destruct pingThrows. }
  split; [done|]. intros Hc.
  apply andb_true_iff in Hc as [Hc ->]. rewrite Hs', Hc.
  apply andb_true_iff in Hc as [Ht Ho].
  unfold timer_armed, is_open, open_in, readyState_in in *. cbn [sockets].
  rewrite lookup_alter_eq. destruct (sockets s !! ws) as [k|] eqn:Hk; [|done].
  cbn. split; [done|]. split; [done|].
  intros again later. cbn [step]. unfold timer_armed. cbn [sockets].
  rewrite lookup_alter_eq, Hk. cbn. rewrite Ht.
  unfold heartbeat, is_open, open_in, readyState_in. mstep.
  by rewrite lookup_alter_eq, Hk.
Qed.

(** ** Closing *)

(** X11.  The close of an accepted connection whose locals do not pass
    [currentRoomId && userId] (it never joined, or joined with user id 0 or
    an empty room id) takes the socket out of the registry, cancels its
    timer and refreshes both statistics, and leaves the directory and the
    wire alone. *)
Theorem close_of_unbound_connection (s : state) (ws : nat) :
  accepted ws s = true →
  truthy (currentRoomId_of ws s) && truthy (userId_of ws s) = false →
  step s (EvClose ws) =
    let stats := {| totalConnections := size (connections s ∖ {[ws]});
                    activeRooms := jm_size (rooms s);
                    lastPingTime := lastPingTime (lastStats s) |} in
    {| rooms := rooms s;
       connections := connections s ∖ {[ws]};
       sockets := alter clear_timer ws
                    (alter (set_readyState CLOSED) ws (sockets s));
       lastStats := stats;
       wire := wire s;
       console := console s ++ [LogDisconnected; LogStats stats] |}.
Proof.
  intros Ha Hb. rewrite close_step_exec by done. cbn zeta. rewrite Hb.
  mstep. by rewrite <- app_assoc.
Qed.

(** X11 on a connection that never joined. *)
Lemma close_of_unbound_connection_witness :
  let s := run [EvConnection 0; EvConnection 1;
                EvMessage 0 (join_frame "r1" 10 "A")] in
  (accepted 1 s = true ∧
   truthy (currentRoomId_of 1 s) && truthy (userId_of 1 s) = false) ∧
  rooms (step s (EvClose 1)) = rooms s ∧
  lastStats (step s (EvClose 1)) =
    {| totalConnections := 1; activeRooms := 1; lastPingTime := 0 |}.
Proof.
  intros s.
  assert (H1 : accepted 1 s = true) by (vm_compute; reflexivity).
  assert (H2 : truthy (currentRoomId_of 1 s) && truthy (userId_of 1 s) = false)
    by (vm_compute; reflexivity).
  split; [by split|].
  rewrite (close_of_unbound_connection s 1 H1 H2).
  split; vm_compute; reflexivity.
Defined.

(** X12.  When a bound connection closes and its user id is not in
    its room's mapping any more (another socket joined under the same id and
    has already left), the mapping is left as it is and the room stays, yet
    the leave_room naming that user id is sent round the room's open
    sockets again, in mapping order and up to the first [send] that
    raises. *)
Theorem close_with_user_id_already_gone
    (tr : list event) (ws : nat) (rid uid : jsval) (ps : list (jsval * nat)) :
  let s := run tr in
  accepted ws s = true →
  bound ws rid uid s →
  jm_get rid (rooms s) = Some (MkRoom ps) →
  jm_get uid ps = None →
  let s' := step s (EvClose ws) in
  room_participants rid s' = ps ∧
  jm_has rid (rooms s') = true ∧
  wire s' = wire s ++
    to_wire (LeaveNotice rid uid)
      (before_raise (sockets s') (attempts (λ _, true) (sockets s') ps)).
Proof.
  intros s Ha (Hrid & Huid & Hr & Hu) Hg Hno s'. subst rid uid.
  destruct (close_step s ws Ha Hr Hu) as (Hps & _). fold s s' in Hps.
  assert (Hold : room_participants (currentRoomId_of ws s) s = ps).
  { unfold room_participants. by rewrite Hg. }
  rewrite Hold, (jm_delete_absent _ _ Hno) in Hps.
  split; [done|]. split.
  - unfold s', s. rewrite <- run_snoc. apply listed_iff_occupied.
    rewrite run_snoc. fold s s'. rewrite Hps.
    by destruct (rooms_wf_lookup _ _ _ (run_wf tr) Hg) as [_ Hne].
  - pose proof (close_wire ws s (MkRoom ps) Ha Hr Hu Hg) as Hw.
    cbn zeta in Hw. cbn [participants] in Hw.
    by rewrite (jm_delete_absent _ _ Hno) in Hw.
Qed.

(** X12: socket 2 is told twice that user 10 left. *)
Lemma close_with_user_id_already_gone_witness :
  let tr := [EvConnection 0; EvConnection 1; EvConnection 2;
             EvMessage 0 (join_frame "r1" 10 "A");
             EvMessage 2 (join_frame "r1" 12 "C");
             EvMessage 1 (join_frame "r1" 10 "A");
             EvClose 1] in
  let s := run tr in
  let s' := step s (EvClose 0) in
  (accepted 0 s = true ∧ bound 0 (JStr "r1") (JNum 10) s ∧
   jm_get (JStr "r1") (rooms s) = Some (MkRoom [(JNum 12, 2)]) ∧
   jm_get (JNum 10) [(JNum 12, 2)] = None) ∧
  wire s' = wire s ++ [(2, LeaveNotice (JStr "r1") (JNum 10))] ∧
  inbox_count 2 (LeaveNotice (JStr "r1") (JNum 10)) (wire s') = 2.
Proof.
  intros tr s s'.
  assert (H1 : accepted 0 s = true) by (vm_compute; reflexivity).
  assert (H2 : bound 0 (JStr "r1") (JNum 10) s)
    by (repeat split; vm_compute; reflexivity).
  assert (H3 : jm_get (JStr "r1") (rooms s) = Some (MkRoom [(JNum 12, 2)]))
    by (vm_compute; reflexivity).
  assert (H4 : jm_get (JNum 10) [(JNum 12, 2)] = None) by (vm_compute; reflexivity).
  split; [by split_and!|].
  destruct (close_with_user_id_already_gone tr 0 _ _ _ H1 H2 H3 H4)
    as (_ & _ & Hw).
  fold s s' in Hw. split; [rewrite Hw; f_equal|].
  vm_compute. reflexivity.
Defined.

(** ** When every socket joins at most once *)

Lemma dir_join_elem rid uid ws r rid' v d :
  (v, d) ∈ match jm_get rid' (dir_join rid uid ws r) with
           | Some room => participants room | None => [] end →
  (rid' = rid ∧ v = uid ∧ d = ws) ∨
  (v, d) ∈ match jm_get rid' r with
           | Some room => participants room | None => [] end.
Proof.
  unfold dir_join. destruct (decide (rid = rid')) as [<-|Hne].
  - rewrite jm_get_set_eq. cbn. intros [[-> ->]|Hin]%jm_elem_set; auto.
  - rewrite jm_get_set_ne by done. auto.
Qed.

Lemma dir_leave_elem rid uid r rid' v d :
  (v, d) ∈ match jm_get rid' (dir_leave rid uid r) with
           | Some room => participants room | None => [] end →
  (v, d) ∈ match jm_get rid' r with
           | Some room => participants room | None => [] end.
Proof.
  unfold dir_leave. destruct (_ && _); [|done].
  destruct (jm_get rid r) as [room|] eqn:Hg; [|done]. cbn zeta.
  destruct (decide (rid = rid')) as [<-|Hne].
  - case_decide.
    + rewrite jm_get_delete_eq. by intros ?%elem_of_nil.
    + rewrite jm_get_set_eq, Hg. cbn. by intros [? _]%jm_elem_delete.
  - case_decide; [by rewrite jm_get_delete_ne|by rewrite jm_get_set_ne].
Qed.

Lemma step_entries_match s seen e :
  entries_match s seen →
  (∀ ws data, e = EvMessage ws data →
     is_join_room data && accepted ws s = true → ws ∉ seen) →
  entries_match (step s e)
    (match e with
     | EvMessage ws data =>
         if is_join_room data && accepted ws s then {[ws]} ∪ seen else seen
     | _ => seen
     end).
Proof.
  intros Hinv Hfresh.
  destruct e as [ws|ws data|ws|ws|ws|ws b t| |ws b];
    try (intros rid v d Hin; unfold room_participants in Hin;
         rewrite step_rooms in Hin;
         match goal with |- context [step s ?ev] =>
           destruct (step_ids d s ev eq_refl) as [-> ->] end;
         by apply Hinv).
  - destruct (is_join_room data && accepted ws s) eqn:Hc.
    + apply andb_true_iff in Hc as [Hj Ha].
      destruct data as [| |m]; try done.
      specialize (Hfresh ws (Parsed m) eq_refl).
      rewrite Hj, Ha in Hfresh. specialize (Hfresh eq_refl).
      intros rid v d Hin. unfold room_participants in Hin.
      rewrite step_rooms, Ha, Hj in Hin. cbn [andb] in Hin.
      unfold userId_of, currentRoomId_of. rewrite step_sockets, Ha, Hj. cbn [andb].
      apply dir_join_elem in Hin as [(-> & -> & ->)|Hin].
      * rewrite lookup_alter_eq. apply bool_decide_eq_true in Ha as [k ->].
        cbn. split_and!; [set_solver|done|done].
      * destruct (Hinv rid v d Hin) as (Hd & Hr & Hu).
        rewrite lookup_alter_ne by (intros ->; done).
        split_and!; [set_solver|done|done].
    + intros rid v d Hin. unfold room_participants in Hin.
      rewrite step_rooms in Hin.
      assert (Hrooms : (v, d) ∈ room_participants rid s).
      { unfold room_participants. destruct data as [| |m]; try done.
        by rewrite andb_comm, Hc in Hin. }
      destruct (Hinv rid v d Hrooms) as (Hd & Hr & Hu).
      split; [done|].
      assert (Hs : sockets (step s (EvMessage ws data)) = sockets s).
      { rewrite step_sockets. destruct data as [| |m]; try done.
        by rewrite andb_comm, Hc. }
      unfold userId_of, currentRoomId_of in *. by rewrite Hs.
  - intros rid v d Hin. unfold room_participants in Hin.
    rewrite step_rooms in Hin.
    destruct (step_ids d s (EvClose ws) eq_refl) as [-> ->].
    apply Hinv. unfold room_participants.
    destruct (accepted ws s); [by apply dir_leave_elem in Hin|done].
Qed.

Lemma fold_entries_match tr tr2 s seen :
  entries_match s seen →
  joins_once_from s seen (tr ++ tr2) = true →
  ∃ seen', entries_match (fold_left step tr s) seen' ∧
           joins_once_from (fold_left step tr s) seen' tr2 = true.
Proof.
  revert s seen. induction tr as [|e tr IH]; intros s seen Hinv Hj.
  - by exists seen.
  - cbn [fold_left app] in *.
    destruct e as [ws|ws data|ws|ws|ws|ws b t| |ws b];
      cbn [joins_once_from] in Hj;
      try (apply (IH _ seen); [|done];
           match goal with |- entries_match (step s ?ev) _ =>
             apply (step_entries_match s seen ev Hinv) end;
           by intros ? ? [=]).
    destruct (is_join_room data && accepted ws s) eqn:Hc.
    + apply andb_true_iff in Hj as [Hf%bool_decide_eq_true Hj].
      apply (IH _ ({[ws]} ∪ seen)); [|done].
      pose proof (step_entries_match s seen (EvMessage ws data) Hinv) as Hst.
      cbv beta iota in Hst. rewrite Hc in Hst. apply Hst. by intros ? ? [= <- <-] _.
    + apply (IH _ seen); [|done].
      pose proof (step_entries_match s seen (EvMessage ws data) Hinv) as Hst.
      cbv beta iota in Hst. rewrite Hc in Hst. apply Hst.
      intros ? ? [= <- <-] Hc'. congruence.
Qed.

Lemma run_entries_match tr tr2 :
  joins_once (tr ++ tr2) = true →
  ∃ seen, entries_match (run tr) seen ∧ joins_once_from (run tr) seen tr2 = true.
Proof.
  intros Hj. apply (fold_entries_match tr tr2 init ∅); [|done].
  intros rid v d Hin. by apply elem_of_nil in Hin.
Qed.

(** X13.  Along a trace in which every socket runs the join_room case
    at most once, a socket is stored in at most one room and there under
    one user id only, and these are the room id and the user id its own
    locals hold. *)
Theorem single_join_one_membership
    (tr : list event) (rid rid' v v' : jsval) (d : nat) :
  joins_once tr = true →
  (v, d) ∈ room_participants rid (run tr) →
  (v', d) ∈ room_participants rid' (run tr) →
  rid = rid' ∧ v = v' ∧ bound_ids_are d rid v (run tr).
Proof.
  intros Hj H1 H2. rewrite <- (app_nil_r tr) in Hj.
  destruct (run_entries_match tr [] Hj) as (seen & Hinv & _).
  destruct (Hinv _ _ _ H1) as (_ & Hr1 & Hu1).
  destruct (Hinv _ _ _ H2) as (_ & Hr2 & Hu2).
  split_and!; [congruence|congruence|done].
Qed.

(** X13 on two sockets in one room. *)
Lemma single_join_one_membership_witness :
  let tr := [EvConnection 0; EvConnection 1;
             EvMessage 0 (join_frame "r1" 10 "A");
             EvMessage 1 (join_frame "r1" 11 "B");
             EvMessage 0 (Parsed (code_message "r1" 10 "x=1"))] in
  (joins_once tr = true ∧
   (JNum 11, 1) ∈ room_participants (JStr "r1") (run tr)) ∧
  bound_ids_are 1 (JStr "r1") (JNum 11) (run tr).
Proof.
  intros tr.
  assert (H1 : joins_once tr = true) by (vm_compute; reflexivity).
  assert (H2 : (JNum 11, 1) ∈ room_participants (JStr "r1") (run tr)).
  { vm_compute. apply elem_of_cons. right. apply elem_of_cons. by left. }
  split; [by split|].
  by destruct (single_join_one_membership tr _ _ _ _ 1 H1 H2 H2) as (_ & _ & Hb).
Defined.

(** ** Who is sent what *)

Lemma new_wire_app s s' extra : wire s' = wire s ++ extra → new_wire s s' = extra.
Proof. intros Hw. unfold new_wire. by rewrite Hw, drop_app_length. Qed.

Lemma catch_wire ws t :
  ∃ extra, wire (exec (on_message_catch ws) t) = wire t ++ extra ∧
           ∀ d p, (d, p) ∈ extra → d = ws ∧ p = ErrorNotice.
Proof.
  unfold exec. rewrite on_message_catch_exec. cbn zeta.
  destruct (is_open ws t); [destruct (send_raises ws t)|].
  - exists []. cbn. rewrite app_nil_r. split; [done|]. by intros ? ? ?%elem_of_nil.
  - exists [(ws, ErrorNotice)]. split; [done|].
    by intros d p [= -> ->]%list_elem_of_singleton.
  - exists []. cbn. rewrite app_nil_r. split; [done|]. by intros ? ? ?%elem_of_nil.
Qed.

(** X14.  Whatever frame arrives on whatever socket, each payload
    the message handler hands out is one of three: the error notice, to the
    sender itself; a join_room notice, to a socket stored under another
    user id in the room the frame names; or the frame itself, relayed to a
    socket stored under another user id in the room the sender is bound to.
    Nothing is ever sent into any other room. *)
Theorem message_recipients
    (s : state) (ws : nat) (data : frame) (d : nat) (p : payload) :
  (d, p) ∈ new_wire s (step s (EvMessage ws data)) →
  (d = ws ∧ p = ErrorNotice) ∨
  (∃ m v, data = Parsed m ∧ m_type m = JStr "join_room" ∧
          p = JoinNotice (m_roomId m) (m_userId m) (m_username m) ∧
          v ≠ m_userId m ∧ (v, d) ∈ room_participants (m_roomId m) s) ∨
  (∃ m v, data = Parsed m ∧ is_update (m_type m) = true ∧
          p = Relayed m ∧
          v ≠ userId_of ws s ∧
          (v, d) ∈ room_participants (currentRoomId_of ws s) s).
Proof.
  destruct (accepted ws s) eqn:Ha.
  2:{ cbn [step]. rewrite Ha. unfold new_wire. rewrite drop_all.
      by intros ?%elem_of_nil. }
  assert (Hbad : is_join_room data = false → (∀ m, data ≠ Parsed m) →
    (d, p) ∈ new_wire s (step s (EvMessage ws data)) → d = ws ∧ p = ErrorNotice).
  { intros Hj Hd. cbn [step]. rewrite Ha. unfold exec.
    rewrite on_message_bad_exec by done.
    destruct (catch_wire ws s) as (extra & Hw & Hex). unfold exec in Hw.
    rewrite (new_wire_app _ _ _ Hw). apply Hex. }
  destruct data as [| |m].
  - intros Hin. left. by apply Hbad.
  - intros Hin. left. by apply Hbad.
  - clear Hbad. destruct (decide (m_type m = JStr "join_room")) as [Hj|Hj].
    + rewrite join_step_exec by done. cbn zeta.
      set (to := attempts _ _ _). set (s1 := State _ _ _ _ _ _).
      assert (Hto : ∀ v, (v, d) ∈ before_raise (sockets s) to →
                         v ≠ m_userId m ∧ (v, d) ∈ room_participants (m_roomId m) s).
      { intros v [Hin _]%before_raise_sub.
        apply attempts_other_than in Hin as (Hv & Hin & _). split; [done|].
        apply jm_elem_set in Hin as [[? _]|Hin]; done. }
      destruct (any_raise (sockets s) to).
      * destruct (catch_wire ws s1) as (extra & Hw & Hex).
        cbn [wire s1] in Hw. rewrite <- app_assoc in Hw.
        rewrite (new_wire_app _ _ _ Hw).
        intros [Hin|Hin]%elem_of_app; [|left; by apply Hex].
        apply elem_of_to_wire in Hin as [-> [v Hin]].
        right; left. exists m, v. destruct (Hto v Hin). done.
      * rewrite (new_wire_app s s1 _ eq_refl).
        intros [-> [v Hin]]%elem_of_to_wire.
        right; left. exists m, v. destruct (Hto v Hin). done.
    + destruct (is_update (m_type m)) eqn:Hu.
      * cbn [step]. rewrite Ha. unfold exec.
        rewrite on_message_update_exec by done. rewrite update_exec. cbn zeta.
        unfold currentRoomId_of, userId_of, room_participants.
        cbn [with_console sockets rooms].
        destruct (_ || _).
        { unfold new_wire. cbn. rewrite drop_all. by intros ?%elem_of_nil. }
        destruct (jm_get _ (rooms s)) as [room|].
        2:{ unfold new_wire. cbn. rewrite drop_all. by intros ?%elem_of_nil. }
        unfold new_wire. cbn [snd wire with_wire with_console].
        rewrite drop_app_length.
        intros [-> [v Hin]]%elem_of_to_wire.
        apply sound_sub in Hin as [Hin _].
        apply attempts_other_than in Hin as (Hv & Hin & _).
        right; right. by exists m, v.
      * cbn [step]. rewrite Ha. unfold exec.
        rewrite on_message_ignored_exec by done.
        unfold new_wire. cbn. rewrite drop_all. by intros ?%elem_of_nil.
Qed.

(** X14 on a relayed code_update. *)
Lemma message_recipients_witness :
  let s := run [EvConnection 0; EvConnection 1; EvConnection 2;
                EvMessage 0 (join_frame "r1" 10 "A");
                EvMessage 1 (join_frame "r1" 11 "B");
                EvMessage 2 (join_frame "r2" 12 "C")] in
  let m := code_message "r1" 10 "x=1" in
  (1, Relayed m) ∈ new_wire s (step s (EvMessage 0 (Parsed m))) ∧
  ((1 = 0 ∧ Relayed m = ErrorNotice) ∨
   (∃ m' v, Parsed m = Parsed m' ∧ m_type m' = JStr "join_room" ∧
            Relayed m = JoinNotice (m_roomId m') (m_userId m') (m_username m') ∧
            v ≠ m_userId m' ∧ (v, 1) ∈ room_participants (m_roomId m') s) ∨
   (∃ m' v, Parsed m = Parsed m' ∧ is_update (m_type m') = true ∧
            Relayed m = Relayed m' ∧
            v ≠ userId_of 0 s ∧
            (v, 1) ∈ room_participants (currentRoomId_of 0 s) s)).
Proof.
  intros s m.
  assert (H1 : (1, Relayed m) ∈ new_wire s (step s (EvMessage 0 (Parsed m)))).
  { vm_compute. apply elem_of_cons. by left. }
  split; [exact H1|].
  exact (message_recipients s 0 (Parsed m) 1 (Relayed m) H1).
Defined.

(** X15.  Along a trace in which every socket runs the join_room case
    at most once, the message handler never sends the sender its own
    message: the only payload a frame can bring back to the socket it
    arrived on is the error notice. *)
Theorem single_join_no_echo
    (tr : list event) (ws : nat) (data : frame) (p : payload) :
  joins_once (tr ++ [EvMessage ws data]) = true →
  (ws, p) ∈ new_wire (run tr) (step (run tr) (EvMessage ws data)) →
  p = ErrorNotice.
Proof.
  intros Hj Hin.
  destruct (run_entries_match tr _ Hj) as (seen & Hinv & Hlast).
  destruct (accepted ws (run tr)) eqn:Ha.
  2:{ cbn [step] in Hin. rewrite Ha in Hin. unfold new_wire in Hin.
      rewrite drop_all in Hin. by apply elem_of_nil in Hin. }
  apply message_recipients in Hin
    as [[_ ->]|[(m & v & -> & Hty & _ & Hv & Hin)|(m & v & -> & _ & _ & Hv & Hin)]].
  - done.
  - destruct (Hinv _ _ _ Hin) as (Hseen & _).
    cbn [joins_once_from is_join_room] in Hlast.
    rewrite bool_decide_true, Ha in Hlast by done. cbn [andb] in Hlast.
    apply andb_true_iff in Hlast as [Hf%bool_decide_eq_true _]. done.
  - destruct (Hinv _ _ _ Hin) as (_ & _ & Hu). done.
Qed.

(** X15 on a frame that cannot be parsed. *)
Lemma single_join_no_echo_witness :
  let tr := [EvConnection 0; EvConnection 1;
             EvMessage 0 (join_frame "r1" 10 "A");
             EvMessage 1 (join_frame "r1" 11 "B");
             EvSendFault 0 true] in
  (joins_once (tr ++ [EvMessage 1 Unparseable]) = true ∧
   (1, ErrorNotice) ∈ new_wire (run tr) (step (run tr) (EvMessage 1 Unparseable))) ∧
  ErrorNotice = ErrorNotice.
Proof.
  intros tr.
  assert (H1 : joins_once (tr ++ [EvMessage 1 Unparseable]) = true)
    by (vm_compute; reflexivity).
  assert (H2 : (1, ErrorNotice)
               ∈ new_wire (run tr) (step (run tr) (EvMessage 1 Unparseable))).
  { vm_compute. apply elem_of_cons. by left. }
  split; [by split|].
  exact (single_join_no_echo tr 1 Unparseable ErrorNotice H1 H2).
Defined.

(** ** Handlers in sequence *)

Lemma close_wire_general s ws :
  accepted ws s = true →
  wire (step s (EvClose ws)) =
  wire s ++ close_extra (currentRoomId_of ws s) (userId_of ws s) (rooms s)
              (alter (set_readyState CLOSED) ws (sockets s)).
Proof.
  intros Ha. rewrite close_step_exec by done. cbn zeta. unfold close_extra.
  set (k0 := alter (set_readyState CLOSED) ws (sockets s)).
  assert (Ho : ∀ g ps, attempts g (alter clear_timer ws k0) ps = attempts g k0 ps).
  { intros g ps. apply attempts_ext. intros d. by apply open_in_alter. }
  assert (Hr : ∀ l, before_raise (alter clear_timer ws k0) l = before_raise k0 l).
  { intros l. apply before_raise_ext. intros d. by apply raises_in_alter. }
  destruct (_ && _); [|mstep; by rewrite app_nil_r].
  rewrite leave_exec. cbn [rooms].
  destruct (jm_get _ (rooms s)) as [room|]; [|mstep; by rewrite app_nil_r].
  cbn zeta. case_decide as Hsz.
  - mstep. apply length_zero_iff_nil in Hsz. rewrite Hsz. cbn.
    by rewrite app_nil_r.
  - cbn [sockets with_rooms with_console]. rewrite Ho, Hr.
    by destruct (any_raise _ _); mstep.
Qed.

(** X16.  An error event that precedes the close event of the same
    connection changes nothing of what the close does: the directory, the
    registry, the wire and every socket's ready state, timer and locals come
    out the same as after the close alone.  The one trace it leaves, besides
    console lines, is one more [clearInterval] call. *)
Theorem error_then_close_is_close (s : state) (ws : nat) :
  accepted ws s = true →
  let both := step (step s (EvError ws)) (EvClose ws) in
  let only := step s (EvClose ws) in
  rooms both = rooms only ∧
  connections both = connections only ∧
  wire both = wire only ∧
  (∀ d, readyState_in (sockets both) d = readyState_in (sockets only) d ∧
        timer_armed d both = timer_armed d only ∧
        userId_of d both = userId_of d only ∧
        currentRoomId_of d both = currentRoomId_of d only) ∧
  clearIntervalCalls_of ws both = S (clearIntervalCalls_of ws only).
Proof.
  intros Ha both only.
  set (e := step s (EvError ws)).
  assert (Hre : rooms e = rooms s) by (unfold e; by rewrite step_rooms).
  assert (Hke : sockets e = alter clear_timer ws (sockets s)).
  { unfold e. by rewrite step_sockets, Ha. }
  assert (Hce : connections e = connections s ∖ {[ws]}).
  { unfold e. by rewrite step_connections, Ha. }
  assert (Hwe : wire e = wire s).
  { unfold e. cbn [step]. rewrite Ha. apply on_error_core. }
  apply bool_decide_eq_true in Ha as Hs. destruct Hs as [k Hk].
  assert (Hae : accepted ws e = true).
  { unfold accepted. apply bool_decide_eq_true.
    rewrite Hke, lookup_alter_eq, Hk. by eexists. }
  assert (Hide : userId_of ws e = userId_of ws s ∧
                 currentRoomId_of ws e = currentRoomId_of ws s).
  { unfold userId_of, currentRoomId_of. rewrite Hke, lookup_alter_eq, Hk. done. }
  destruct Hide as [Hue Hrie].
  split_and!.
  - unfold both, only. fold e. by rewrite !step_rooms, Hae, Ha, Hre, Hue, Hrie.
  - unfold both, only. fold e. rewrite !step_connections, Hae, Ha, Hce. set_solver.
  - unfold both, only. fold e. rewrite !close_wire_general by done.
    rewrite Hwe, Hre, Hue, Hrie, Hke. f_equal. unfold close_extra.
    destruct (_ && _); [|done]. destruct (jm_get _ _) as [room|]; [|done].
    f_equal.
    assert (Ho : ∀ d,
      open_in (alter (set_readyState CLOSED) ws (alter clear_timer ws (sockets s))) d
      = open_in (alter (set_readyState CLOSED) ws (sockets s)) d).
    { intros d. unfold open_in, readyState_in.
      destruct (decide (ws = d)) as [<-|Hne];
        [by rewrite !lookup_alter_eq, Hk | by rewrite !lookup_alter_ne]. }
    assert (Hr : ∀ d,
      raises_in (alter (set_readyState CLOSED) ws (alter clear_timer ws (sockets s))) d
      = raises_in (alter (set_readyState CLOSED) ws (sockets s)) d).
    { intros d. unfold raises_in.
      destruct (decide (ws = d)) as [<-|Hne];
        [by rewrite !lookup_alter_eq, Hk | by rewrite !lookup_alter_ne]. }
    rewrite (attempts_ext _ _ _ _ Ho). by apply before_raise_ext.
  - intros d. unfold both, only, readyState_in, timer_armed, userId_of,
      currentRoomId_of. fold e.
    rewrite !step_sockets, Hae, Ha, Hke.
    destruct (decide (ws = d)) as [<-|Hne];
      [by rewrite !lookup_alter_eq, Hk | by rewrite !lookup_alter_ne].
  - unfold both, only, clearIntervalCalls_of. fold e.
    rewrite !step_sockets, Hae, Ha, Hke, !lookup_alter_eq, Hk. done.
Qed.

(** X16 on a connection that shares a room. *)
Lemma error_then_close_is_close_witness :
  let s := run [EvConnection 0; EvConnection 1;
                EvMessage 0 (join_frame "r1" 10 "A");
                EvMessage 1 (join_frame "r1" 11 "B")] in
  accepted 1 s = true ∧
  wire (step (step s (EvError 1)) (EvClose 1))
    = wire s ++ [(0, LeaveNotice (JStr "r1") (JNum 11))].
Proof.
  intros s.
  assert (H1 : accepted 1 s = true) by (vm_compute; reflexivity).
  split; [exact H1|].
  destruct (error_then_close_is_close s 1 H1) as (_ & _ & Hw & _).
  rewrite Hw. vm_compute. reflexivity.
Defined.

(** X17.  A join_room frame handled a second time on the same socket
    leaves the directory, the registry and the socket's locals exactly as
    the first handling left them: the room keeps its participants, their
    order and its size. *)
Theorem repeated_join_changes_nothing (s : state) (ws : nat) (m : message) :
  accepted ws s = true →
  m_type m = JStr "join_room" →
  let once := step s (EvMessage ws (Parsed m)) in
  let twice := step once (EvMessage ws (Parsed m)) in
  rooms twice = rooms once ∧
  connections twice = connections once ∧
  sockets twice = sockets once.
Proof.
  intros Ha Hty once twice.
  destruct (join_step s ws m Ha Hty) as (Hr1 & _). fold once in Hr1.
  assert (Hk1 : sockets once
    = alter (bind_ids (m_userId m) (m_roomId m)) ws (sockets s)).
  { unfold once. rewrite step_sockets, Ha. simpl. by rewrite bool_decide_true. }
  apply bool_decide_eq_true in Ha as Hs. destruct Hs as [k Hk].
  assert (Ha1 : accepted ws once = true).
  { unfold accepted. apply bool_decide_eq_true.
    rewrite Hk1, lookup_alter_eq, Hk. by eexists. }
  destruct (join_step once ws m Ha1 Hty) as (Hr2 & _). fold twice in Hr2.
  split_and!.
  - rewrite Hr2, Hr1. unfold dir_join. rewrite jm_get_set_eq. cbn [participants].
    by rewrite !jm_set_set.
  - unfold twice, once. by rewrite !step_connections.
  - unfold twice. rewrite step_sockets, Ha1. simpl.
    rewrite bool_decide_true by done. rewrite Hk1.
    apply map_eq. intros d.
    destruct (decide (ws = d)) as [<-|Hne];
      [by rewrite !lookup_alter_eq, Hk | by rewrite !lookup_alter_ne].
Qed.

(** X17 on a join sent twice. *)
Lemma repeated_join_changes_nothing_witness :
  let s := run [EvConnection 0; EvConnection 1;
                EvMessage 0 (join_frame "r1" 10 "A")] in
  let m := {| m_type := JStr "join_room"; m_roomId := JStr "r1";
              m_userId := JNum 11; m_username := JStr "B"; m_rest := "" |} in
  let once := step s (EvMessage 1 (Parsed m)) in
  (accepted 1 s = true ∧ m_type m = JStr "join_room") ∧
  rooms (step once (EvMessage 1 (Parsed m)))
    = [(JStr "r1", MkRoom [(JNum 10, 0); (JNum 11, 1)])].
Proof.
  intros s m once.
  assert (H1 : accepted 1 s = true) by (vm_compute; reflexivity).
  assert (H2 : m_type m = JStr "join_room") by reflexivity.
  split; [by split|].
  destruct (repeated_join_changes_nothing s 1 m H1 H2) as (Hr & _).
  fold once in Hr. rewrite Hr. vm_compute. reflexivity.
Defined.
